(** * weathergraphnet: shallow embedding of [train_cnn.py] and [utils.py]

    The development follows the two source files.  Tensors of the numerical
    framework are four-dimensional arrays indexed by naturals; Python integers
    are [Z]; Python slices follow the interpreter's index adjustment;
    exceptions are an error monad.  A floating-point number is an exact
    rational, an infinity or NaN ([Float.t]): the special values follow the
    floating-point standard, rounding is not modelled.  A cell of a data
    cube holds a rational or is missing (NaN, [None]). *)

From Stdlib Require Import ZArith QArith Qabs Lia Lqa ZifyNat.
From stdpp Require Import base list gmap strings.

Local Open Scope Z_scope.

(** ** Python exceptions as an error monad *)

Inductive exn : Type :=
| ValueError (msg : string)
| KeyError (key : string)
| TypeError (msg : string)
| IndexError (msg : string)
| RuntimeError (msg : string).

Inductive result (A : Type) : Type :=
| Return (a : A)
| Raise (e : exn).
Arguments Return {A} a.
Arguments Raise {A} e.

#[global] Instance result_ret : MRet result := fun A a => Return a.
#[global] Instance result_bind : MBind result := fun A B k m =>
  match m with
  | Return a => k a
  | Raise e => Raise e
  end.
#[global] Instance result_fmap : FMap result := fun A B f m =>
  match m with
  | Return a => Return (f a)
  | Raise e => Raise e
  end.

Definition is_ValueError {A} (r : result A) : Prop :=
  match r with
  | Raise (ValueError _) => True
  | _ => False
  end.

Definition is_TypeError {A} (r : result A) : Prop :=
  match r with
  | Raise (TypeError _) => True
  | _ => False
  end.

Definition is_RuntimeError {A} (r : result A) : Prop :=
  match r with
  | Raise (RuntimeError _) => True
  | _ => False
  end.

(** ** Python slices [start:stop] (step 1)

    [adjust_index] is the interpreter's adjustment of one slice bound to a
    sequence of length [len]: a negative bound counts from the end, and every
    bound is clamped to [0, len]. *)

Module PySlice.

Definition t : Type := option Z * option Z.

(** The slice [:]. *)
Definition full : t := (None, None).

Definition adjust_index (len i : Z) : Z :=
  if i <? 0 then Z.max 0 (i + len) else Z.min i len.

(** Offset of the first selected position and number of selected
    positions, as in [slice.indices] followed by [len(range(...))]. *)
Definition range (s : t) (len : nat) : nat * nat :=
  let n := Z.of_nat len in
  let lo := match fst s with Some a => adjust_index n a | None => 0 end in
  let hi := match snd s with Some b => adjust_index n b | None => n end in
  (Z.to_nat lo, Z.to_nat (Z.max 0 (hi - lo))).

(** [l[start:stop]] on a list. *)
Definition get {A} (l : list A) (s : t) : list A :=
  let '(off, n) := range s (length l) in take n (drop off l).

End PySlice.

(** ** Four-dimensional tensors (batch, channel, height, width) *)

Record Tensor4 (A : Type) : Type := mkTensor4 {
  size0 : nat;
  size1 : nat;
  size2 : nat;
  size3 : nat;
  at4 : nat -> nat -> nat -> nat -> A
}.
Arguments mkTensor4 {A} _ _ _ _ _.
Arguments size0 {A} _.
Arguments size1 {A} _.
Arguments size2 {A} _.
Arguments size3 {A} _.
Arguments at4 {A} _ _ _ _ _.

Definition shape {A} (t : Tensor4 A) : nat * nat * nat * nat :=
  (size0 t, size1 t, size2 t, size3 t).

(** Two tensors are the same when they have the same shape and the same
    entry at every position inside it. *)
Definition tensor_eq {A} (t u : Tensor4 A) : Prop :=
  shape t = shape u /\
  forall n c y x,
    (n < size0 t)%nat -> (c < size1 t)%nat ->
    (y < size2 t)%nat -> (x < size3 t)%nat ->
    at4 t n c y x = at4 u n c y x.

(** [t[:, :, sy, sx]]: basic indexing with a slice on each spatial axis. *)
Definition getitem_hw {A} (t : Tensor4 A) (sy sx : PySlice.t) : Tensor4 A :=
  let '(oy, h) := PySlice.range sy (size2 t) in
  let '(ox, w) := PySlice.range sx (size3 t) in
  mkTensor4 (size0 t) (size1 t) h w
            (fun n c y x => at4 t n c (oy + y)%nat (ox + x)%nat).

(** ** Layers of the numerical framework, at the level of shapes

    The forward pass is followed on tensors without contents ([Tensor4 unit]):
    each layer maps the shape of its input to the shape of its output by the
    output-size formulas of the framework's documentation.  A layer raises
    [RuntimeError] for an input it cannot work on: a channel count other than
    the layer's [in_channels], an input without channels, rows or columns, a
    convolution without output channels, a padded input smaller than the
    kernel, a window whose output would have no row or no column.  The
    number of samples of the batch is passed on as it is. *)

Module Torch.

Definition blank (n c h w : nat) : Tensor4 unit :=
  mkTensor4 n c h w (fun _ _ _ _ => tt).

Definition shape_eqb {A} (t u : Tensor4 A) : bool :=
  bool_decide (shape t = shape u).

(** Output extent of a convolution or pooling window (dilation 1):
    [floor((n + 2*padding - (kernel_size - 1) - 1) / stride + 1)]. *)
Definition window_out (n kernel_size stride padding : nat) : nat :=
  Z.to_nat ((Z.of_nat n + 2 * Z.of_nat padding
             - (Z.of_nat kernel_size - 1) - 1) / Z.of_nat stride + 1).

(** Output extent of a transposed convolution (no padding, dilation 1):
    [(n - 1) * stride + (kernel_size - 1) + 1]. *)
Definition transposed_out (n kernel_size stride : nat) : nat :=
  Z.to_nat ((Z.of_nat n - 1) * Z.of_nat stride + (Z.of_nat kernel_size - 1) + 1).

Record Conv2d : Type := mkConv2d {
  conv_in : nat; conv_out : nat; conv_kernel : nat; conv_padding : nat }.

Record MaxPool2d : Type := mkMaxPool2d { pool_kernel : nat; pool_stride : nat }.

Record ConvTranspose2d : Type := mkConvTranspose2d {
  convT_in : nat; convT_out : nat; convT_kernel : nat; convT_stride : nat }.

Definition channel_mismatch : exn :=
  RuntimeError "expected input to have the layer's number of channels".

Definition no_output_channels : exn :=
  RuntimeError "expected weight to be at least 1 at dimension 0".

Definition empty_input : exn :=
  RuntimeError "expected an input with non-zero dimensions besides the batch".

Definition kernel_too_large : exn :=
  RuntimeError "Kernel size can't be greater than actual input size".

Definition output_too_small : exn :=
  RuntimeError "Output size is too small".

(** The input has no channel, no row or no column. *)
Definition no_cells {A} (x : Tensor4 A) : bool :=
  bool_decide (size1 x = 0%nat \/ size2 x = 0%nat \/ size3 x = 0%nat).

Definition conv2d (l : Conv2d) (x : Tensor4 unit) : result (Tensor4 unit) :=
  if bool_decide (conv_out l = 0%nat) then Raise no_output_channels
  else if bool_decide (size1 x <> conv_in l) then Raise channel_mismatch
  else if no_cells x then Raise empty_input
  else if bool_decide (size2 x + 2 * conv_padding l < conv_kernel l
                       \/ size3 x + 2 * conv_padding l < conv_kernel l)%nat
  then Raise kernel_too_large
  else Return (blank (size0 x) (conv_out l)
                 (window_out (size2 x) (conv_kernel l) 1 (conv_padding l))
                 (window_out (size3 x) (conv_kernel l) 1 (conv_padding l))).

Definition max_pool2d (l : MaxPool2d) (x : Tensor4 unit) : result (Tensor4 unit) :=
  let h := window_out (size2 x) (pool_kernel l) (pool_stride l) 0 in
  let w := window_out (size3 x) (pool_kernel l) (pool_stride l) 0 in
  if no_cells x then Raise empty_input
  else if bool_decide (h = 0 \/ w = 0)%nat then Raise output_too_small
  else Return (blank (size0 x) (size1 x) h w).

Definition conv_transpose2d (l : ConvTranspose2d) (x : Tensor4 unit)
  : result (Tensor4 unit) :=
  let h := transposed_out (size2 x) (convT_kernel l) (convT_stride l) in
  let w := transposed_out (size3 x) (convT_kernel l) (convT_stride l) in
  if bool_decide (convT_out l = 0%nat) then Raise no_output_channels
  else if bool_decide (size1 x <> convT_in l) then Raise channel_mismatch
  else if no_cells x then Raise empty_input
  else if bool_decide (h = 0 \/ w = 0)%nat then Raise output_too_small
  else Return (blank (size0 x) (convT_out l) h w).

(** [nn.ReLU] acts entry by entry. *)
Definition relu (x : Tensor4 unit) : Tensor4 unit := x.

(** [torch.cat([a, b], dim=1)]: all other extents must agree. *)
Definition cat1 (a b : Tensor4 unit) : result (Tensor4 unit) :=
  if bool_decide (size0 a = size0 b /\ size2 a = size2 b /\ size3 a = size3 b)
  then Return (blank (size0 a) (size1 a + size1 b) (size2 a) (size3 a))
  else Raise (RuntimeError "Sizes of tensors must match except in dimension 1").

(** [F.pad(x, (left, right, top, bottom), mode='replicate')]: the first
    pair pads the last axis, the second pair the axis before it. *)
Definition pad_replicate (x : Tensor4 unit) (left right top bottom : nat)
  : result (Tensor4 unit) :=
  if no_cells x then Raise empty_input
  else Return (blank (size0 x) (size1 x)
                 (top + size2 x + bottom) (left + size3 x + right)).

End Torch.

(** ** [UNet] (train_cnn.py) *)

Module UNet.

Definition crop {A} (encoder_layer decoder_layer : Tensor4 A) : Tensor4 A :=
  let diffY := Z.of_nat (size2 encoder_layer) - Z.of_nat (size2 decoder_layer) in
  let diffX := Z.of_nat (size3 encoder_layer) - Z.of_nat (size3 decoder_layer) in
  let encoder_layer :=
    getitem_hw encoder_layer
      (Some (diffY / 2), Some (Z.of_nat (size2 encoder_layer) - diffY / 2))
      (Some (diffX / 2), Some (Z.of_nat (size3 encoder_layer) - diffX / 2)) in
  let encoder_layer :=
    if diffX mod 2 =? 1
    then getitem_hw encoder_layer PySlice.full
           (Some 1, Some (Z.of_nat (size3 encoder_layer)))
    else encoder_layer in
  let encoder_layer :=
    if diffY mod 2 =? 1
    then getitem_hw encoder_layer
           (Some 1, Some (Z.of_nat (size2 encoder_layer))) PySlice.full
    else encoder_layer in
  encoder_layer.

(** Removal of whole rows and columns at the four sides of the spatial
    extent: [top] leading and [bottom] trailing rows, [left] leading and
    [right] trailing columns. *)
Definition trim {A} (t : Tensor4 A) (top bottom left right : nat) : Tensor4 A :=
  mkTensor4 (size0 t) (size1 t)
            (size2 t - top - bottom)%nat (size3 t - left - right)%nat
            (fun n c y x => at4 t n c (top + y)%nat (left + x)%nat).

(** A crop is symmetric when on each spatial axis it removes as many
    positions at the leading side as at the trailing side. *)
Definition symmetric_crop_of {A} (enc r : Tensor4 A) : Prop :=
  exists ky kx : nat, tensor_eq r (trim enc ky ky kx kx).

(** The network of [__init__]: its layers, with the channel counts and
    window parameters of the constructor. *)
Record t : Type := mkUNet {
  conv1 : Torch.Conv2d; pool1 : Torch.MaxPool2d;
  conv2 : Torch.Conv2d; pool2 : Torch.MaxPool2d;
  conv3 : Torch.Conv2d; pool3 : Torch.MaxPool2d;
  conv4 : Torch.Conv2d; pool4 : Torch.MaxPool2d;
  upconv1 : Torch.ConvTranspose2d; conv5 : Torch.Conv2d;
  upconv2 : Torch.ConvTranspose2d; conv6 : Torch.Conv2d;
  upconv3 : Torch.ConvTranspose2d; conv7 : Torch.Conv2d;
  skip1 : Torch.Conv2d; skip2 : Torch.Conv2d; skip3 : Torch.Conv2d;
  outconv : Torch.Conv2d
}.

Definition init (channels_in channels_out : nat) : t := {|
  conv1 := Torch.mkConv2d channels_in 64 3 1;
  pool1 := Torch.mkMaxPool2d 2 2;
  conv2 := Torch.mkConv2d 64 128 3 1;
  pool2 := Torch.mkMaxPool2d 2 2;
  conv3 := Torch.mkConv2d 128 256 3 1;
  pool3 := Torch.mkMaxPool2d 2 2;
  conv4 := Torch.mkConv2d 256 512 3 1;
  pool4 := Torch.mkMaxPool2d 2 2;
  upconv1 := Torch.mkConvTranspose2d 512 256 2 2;
  conv5 := Torch.mkConv2d 512 256 3 1;
  upconv2 := Torch.mkConvTranspose2d 256 128 2 2;
  conv6 := Torch.mkConv2d 256 128 3 1;
  upconv3 := Torch.mkConvTranspose2d 128 64 2 2;
  conv7 := Torch.mkConv2d 128 64 3 1;
  skip1 := Torch.mkConv2d 256 256 1 0;
  skip2 := Torch.mkConv2d 128 128 1 0;
  skip3 := Torch.mkConv2d 64 64 1 0;
  outconv := Torch.mkConv2d 64 channels_out 1 0
|}.

(** One decoder stage's skip connection: the encoder map is cropped when
    its shape differs from the decoder map's, and the counter of crops is
    advanced. *)
Definition skip (enc dec : Tensor4 unit) (cropped : nat) : Tensor4 unit * nat :=
  if negb (Torch.shape_eqb dec enc) then (crop enc dec, S cropped)
  else (enc, cropped).

(** [forward] up to the output convolution, with the number of crops. *)
Definition forward_body (self : t) (x : Tensor4 unit)
  : result (Tensor4 unit * nat) :=
  (* Encoder *)
  x1 ← Torch.relu <$> Torch.conv2d (conv1 self) x;
  x2 ← Torch.relu <$> (Torch.conv2d (conv2 self) x1 ≫= Torch.max_pool2d (pool1 self));
  x3 ← Torch.relu <$> (Torch.conv2d (conv3 self) x2 ≫= Torch.max_pool2d (pool2 self));
  x4 ← Torch.relu <$> (Torch.conv2d (conv4 self) x3 ≫= Torch.max_pool2d (pool3 self));
  (* Decoder *)
  let cropped := 0%nat in
  y1 ← Torch.relu <$> Torch.conv_transpose2d (upconv1 self) x4;
  let '(x3, cropped) := skip x3 y1 cropped in
  y1 ← Torch.relu <$> (Torch.cat1 x3 y1 ≫= Torch.conv2d (conv5 self));
  y2 ← Torch.relu <$> Torch.conv_transpose2d (upconv2 self) y1;
  let '(x2, cropped) := skip x2 y2 cropped in
  y2 ← Torch.relu <$> (Torch.cat1 x2 y2 ≫= Torch.conv2d (conv6 self));
  y3 ← Torch.relu <$> Torch.conv_transpose2d (upconv3 self) y2;
  let '(x1, cropped) := skip x1 y3 cropped in
  y3 ← Torch.relu <$> (Torch.cat1 x1 y3 ≫= Torch.conv2d (conv7 self));
  (* Output *)
  out ← Torch.conv2d (outconv self) y3;
  mret (out, cropped).

Definition forward (self : t) (x : Tensor4 unit) : result (Tensor4 unit) :=
  '(out, cropped) ← forward_body self x;
  Torch.pad_replicate out cropped 0 0 0.

End UNet.

(** ** NumPy: index ranges and the in-place shuffle *)

Module Np.

Definition arange (n : nat) : list nat := seq 0 n.

(** State of the global random generator: the raw words it will still
    produce. *)
Definition rng : Type := list nat.

(** A draw from [0, max], both ends included. *)
Definition random_interval (g : rng) (max : nat) : nat * rng :=
  match g with
  | [] => (0%nat, [])
  | r :: g' => ((r mod S max)%nat, g')
  end.

(** [x[i], x[j] = x[j], x[i]] *)
Definition swap {A} (x : list A) (i j : nat) : list A :=
  match x !! i, x !! j with
  | Some a, Some b => <[i := b]> (<[j := a]> x)
  | _, _ => x
  end.

(** The loop of [np.random.shuffle]:
    [for i in reversed(range(1, n)): j = random_interval(i); swap(i, j)],
    entered with [i = n - 1]. *)
Fixpoint shuffle_from {A} (i : nat) (x : list A) (g : rng) : list A * rng :=
  match i with
  | O => (x, g)
  | S i' =>
      let '(j, g) := random_interval g i in
      shuffle_from i' (swap x i j) g
  end.

Definition shuffle {A} (x : list A) (g : rng) : list A * rng :=
  shuffle_from (length x - 1) x g.

End Np.

(** ** Data cubes

    A data cube has the dimensions (time, member, height, ncells), in this
    order after the transposition done at loading time.  A cell holds a
    number or is missing (NaN). *)

Definition DataArray : Type := Tensor4 (option Q).

(** A three-dimensional array (member, height, ncells), as obtained by fixing
    the time of a data cube. *)
Record Array3 (A : Type) : Type := mkArray3 {
  len0 : nat;
  len1 : nat;
  len2 : nat;
  at3 : nat -> nat -> nat -> A
}.
Arguments mkArray3 {A} _ _ _ _.
Arguments len0 {A} _.
Arguments len1 {A} _.
Arguments len2 {A} _.
Arguments at3 {A} _ _ _ _.

(** ** [MyDataset] (train_cnn.py; [__init__] is the same in utils.py) *)

Module MyDataset.

Record t : Type := mk {
  data : DataArray;
  split : Z;
  train_indices : list nat;
  test_indices : list nat
}.

Definition init (data : DataArray) (split : Z) (g : Np.rng) : t * Np.rng :=
  (* Get the number of members in the dataset *)
  let num_members := size1 data in
  (* Get the indices of the members *)
  let member_indices := Np.arange num_members in
  (* Shuffle the member indices *)
  let '(member_indices, g) := Np.shuffle member_indices g in
  (* Split the member indices into train and test sets *)
  (mk data split
      (PySlice.get member_indices (None, Some split))
      (PySlice.get member_indices (Some split, None)),
   g).

Definition len (self : t) : nat := size0 (data self).

(** [data.isel(member=indices, time=idx).values] *)
Definition isel (d : DataArray) (indices : list nat) (idx : nat)
  : result (Array3 (option Q)) :=
  if bool_decide (idx < size0 d /\ Forall (fun m => m < size1 d) indices)%nat
  then Return (mkArray3 (length indices) (size2 d) (size3 d)
                 (fun k y x => at4 d idx (nth k indices 0%nat) y x))
  else Raise (IndexError "index out of bounds").

(** [__getitem__]; the arrays obtained here have three dimensions, so the
    branch for two-dimensional arrays is not taken. *)
Definition getitem (self : t) (idx : nat)
  : result (Array3 (option Q) * Array3 (option Q)) :=
  x ← isel (data self) (train_indices self) idx;
  y ← isel (data self) (test_indices self) idx;
  mret (x, y).

End MyDataset.

(** ** Floating-point numbers

    A number of the framework or of the interpreter is a rational, one of
    the two infinities or NaN.  The operations give the special values of
    the floating-point standard: an undefined result (infinity minus
    infinity, zero times infinity, zero by zero, infinity by infinity) is
    NaN, NaN spreads through every operation, and no comparison with NaN
    holds.  Results are not rounded, and a zero carries no sign: as a
    divisor it counts as positive, which is the zero a sum or a count
    yields. *)

Module Float.

Inductive t : Type :=
| Fin (q : Q)
| PInf
| NInf
| NaN.

Definition zero : t := Fin 0.
Definition one : t := Fin 1.

Definition of_nat (n : nat) : t := Fin (inject_Z (Z.of_nat n)).
Definition of_Z (z : Z) : t := Fin (inject_Z z).

(** The infinity with the sign of [q], NaN for zero. *)
Definition signed (q : Q) : t :=
  match (q ?= 0)%Q with
  | Gt => PInf
  | Lt => NInf
  | Eq => NaN
  end.

Definition opp (a : t) : t :=
  match a with
  | Fin q => Fin (- q)
  | PInf => NInf
  | NInf => PInf
  | NaN => NaN
  end.

Definition abs (a : t) : t :=
  match a with
  | Fin q => Fin (Qabs q)
  | PInf | NInf => PInf
  | NaN => NaN
  end.

Definition add (a b : t) : t :=
  match a, b with
  | NaN, _ | _, NaN => NaN
  | Fin x, Fin y => Fin (x + y)
  | PInf, NInf | NInf, PInf => NaN
  | PInf, _ | _, PInf => PInf
  | NInf, _ | _, NInf => NInf
  end.

Definition sub (a b : t) : t := add a (opp b).

Definition mul (a b : t) : t :=
  match a, b with
  | NaN, _ | _, NaN => NaN
  | Fin x, Fin y => Fin (x * y)
  | Fin x, PInf | PInf, Fin x => signed x
  | Fin x, NInf | NInf, Fin x => signed (- x)
  | PInf, PInf | NInf, NInf => PInf
  | PInf, NInf | NInf, PInf => NInf
  end.

Definition div (a b : t) : t :=
  match a, b with
  | NaN, _ | _, NaN => NaN
  | Fin x, Fin y => if Qeq_bool y 0 then signed x else Fin (x / y)
  | Fin _, (PInf | NInf) => Fin 0
  | (PInf | NInf), (PInf | NInf) => NaN
  | PInf, Fin y => if Qlt_le_dec y 0 then NInf else PInf
  | NInf, Fin y => if Qlt_le_dec y 0 then PInf else NInf
  end.

(** [a < b] *)
Definition ltb (a b : t) : bool :=
  match a, b with
  | NaN, _ | _, NaN => false
  | Fin x, Fin y => if Qlt_le_dec x y then true else false
  | _, NInf | PInf, _ => false
  | NInf, _ | _, PInf => true
  end.

Definition is_finite (a : t) : Prop :=
  match a with
  | Fin _ => True
  | _ => False
  end.

(** The rational a finite number stands for. *)
Definition to_Q (a : t) : Q :=
  match a with
  | Fin q => q
  | _ => 0
  end.

(** The same value: rationals of the same value, the same infinity, or
    NaN on both sides. *)
Definition same (a b : t) : Prop :=
  match a, b with
  | Fin x, Fin y => (x == y)%Q
  | PInf, PInf | NInf, NInf | NaN, NaN => True
  | _, _ => False
  end.

End Float.

(** ** Tensor arithmetic used by the loss functions *)

Module T.

Fixpoint sum_upto (n : nat) (f : nat -> Float.t) : Float.t :=
  match n with
  | O => Float.zero
  | S k => Float.add (sum_upto k f) (f k)
  end.

(** Broadcasting of two extents: they are the same, or one of them is 1
    and gives way to the other. *)
Definition broadcast (a b : nat) : option nat :=
  if bool_decide (a = b) then Some a
  else if bool_decide (a = 1%nat) then Some b
  else if bool_decide (b = 1%nat) then Some a
  else None.

(** The position read along an axis of extent [size] for the position [i]
    of the broadcast result. *)
Definition pos (size i : nat) : nat :=
  if bool_decide (size = 1%nat) then 0%nat else i.

Definition not_broadcastable : exn :=
  RuntimeError "The size of tensor a must match the size of tensor b".

(** An operator applied entry by entry to two tensors, with broadcasting;
    extents that cannot be broadcast raise [RuntimeError].  A tensor without
    dimensions (a single number) is a tensor with one entry. *)
Definition map2 (op : Float.t -> Float.t -> Float.t) (a b : Tensor4 Float.t)
  : result (Tensor4 Float.t) :=
  match broadcast (size0 a) (size0 b), broadcast (size1 a) (size1 b),
        broadcast (size2 a) (size2 b), broadcast (size3 a) (size3 b) with
  | Some s0, Some s1, Some s2, Some s3 =>
      Return (mkTensor4 s0 s1 s2 s3
                (fun n c y x =>
                   op (at4 a (pos (size0 a) n) (pos (size1 a) c)
                             (pos (size2 a) y) (pos (size3 a) x))
                      (at4 b (pos (size0 b) n) (pos (size1 b) c)
                             (pos (size2 b) y) (pos (size3 b) x))))
  | _, _, _, _ => Raise not_broadcastable
  end.

Definition sub : Tensor4 Float.t -> Tensor4 Float.t -> result (Tensor4 Float.t) :=
  map2 Float.sub.
Definition mul : Tensor4 Float.t -> Tensor4 Float.t -> result (Tensor4 Float.t) :=
  map2 Float.mul.

Definition abs (a : Tensor4 Float.t) : Tensor4 Float.t :=
  mkTensor4 (size0 a) (size1 a) (size2 a) (size3 a)
            (fun n c y x => Float.abs (at4 a n c y x)).

Definition numel {A} (a : Tensor4 A) : nat :=
  (size0 a * size1 a * size2 a * size3 a)%nat.

(** [torch.sum(a)] *)
Definition sum (a : Tensor4 Float.t) : Float.t :=
  sum_upto (size0 a) (fun n =>
  sum_upto (size1 a) (fun c =>
  sum_upto (size2 a) (fun y =>
  sum_upto (size3 a) (fun x => at4 a n c y x)))).

(** [torch.mean(a)] *)
Definition mean (a : Tensor4 Float.t) : Float.t :=
  Float.div (sum a) (Float.of_nat (numel a)).

(** [torch.var(a, dim=1)]: the unbiased variance over the ensemble axis,
    the sum of the squared deviations from the mean divided by
    [max(0, N - 1)] for [N] members.  The reduced axis is kept with extent
    one, which leaves the count and the sum of the entries of the result as
    they are without it. *)
Definition var_dim1 (a : Tensor4 Float.t) : Tensor4 Float.t :=
  mkTensor4 (size0 a) 1 (size2 a) (size3 a)
    (fun n _ y x =>
       let m := Float.div (sum_upto (size1 a) (fun c => at4 a n c y x))
                          (Float.of_nat (size1 a)) in
       Float.div
         (sum_upto (size1 a) (fun c =>
            Float.mul (Float.sub (at4 a n c y x) m) (Float.sub (at4 a n c y x) m)))
         (Float.of_Z (Z.max 0 (Z.of_nat (size1 a) - 1)))).

(** A single number as a tensor: what a reduction to one number returns. *)
Definition scalar (v : Float.t) : Tensor4 Float.t :=
  mkTensor4 1 1 1 1 (fun _ _ _ _ => v).

(** Every entry of the tensor is a finite number. *)
Definition finite (a : Tensor4 Float.t) : Prop :=
  forall n c y x,
    (n < size0 a)%nat -> (c < size1 a)%nat ->
    (y < size2 a)%nat -> (x < size3 a)%nat ->
    Float.is_finite (at4 a n c y x).

End T.

(** ** Loss functions (the same in train_cnn.py and utils.py) *)

Module EnsembleVarianceRegularizationLoss.

Definition forward (alpha : Float.t) (outputs target : Tensor4 Float.t)
  : result Float.t :=
  diff ← T.sub outputs target;
  let l1_loss := T.mean (T.abs diff) in
  let ensemble_variance := T.var_dim1 outputs in
  let regularization_loss :=
    Float.mul (Float.opp alpha) (T.mean ensemble_variance) in
  mret (Float.add l1_loss regularization_loss).

End EnsembleVarianceRegularizationLoss.

Module MaskedLoss.

(** [loss_fn] is the loss function given to the constructor; it returns a
    tensor of losses or raises. *)
Definition forward
           (loss_fn : Tensor4 Float.t -> Tensor4 Float.t -> result (Tensor4 Float.t))
           (outputs target mask : Tensor4 Float.t) : result Float.t :=
  (* Calculate the loss using the specified loss function *)
  loss ← loss_fn outputs target;
  (* Mask the loss *)
  masked_loss ← T.mul loss mask;
  (* Calculate the mean loss over all unmasked cells *)
  let mean_loss := Float.div (T.sum masked_loss) (T.sum mask) in
  mret mean_loss.

(** Some entry of the mask is not zero. *)
Definition has_nonzero (mask : Tensor4 Float.t) : Prop :=
  exists n c y x,
    (n < size0 mask)%nat /\ (c < size1 mask)%nat /\
    (y < size2 mask)%nat /\ (x < size3 mask)%nat /\
    ~ Float.same (at4 mask n c y x) Float.zero.

(** Every entry of the mask is 0 (masked) or 1 (unmasked). *)
Definition zero_one (mask : Tensor4 Float.t) : Prop :=
  forall n c y x,
    (n < size0 mask)%nat -> (c < size1 mask)%nat ->
    (y < size2 mask)%nat -> (x < size3 mask)%nat ->
    Float.same (at4 mask n c y x) Float.zero
    \/ Float.same (at4 mask n c y x) Float.one.

End MaskedLoss.

(** ** Coarsening of data cubes

    [data.coarsen(height=w, ncells=w)] groups the height and ncells axes in
    windows of [w] positions; with the default [boundary="exact"] it raises
    [ValueError] unless each extent is a multiple of the window, and a window
    must be positive.  A reduction then maps every block of [w * w] cells to
    one cell. *)

Module Xr.
Local Open Scope Q_scope.

Definition list_sum (l : list Q) : Q := foldr Qplus 0 l.

Definition list_mean (l : list Q) : Q :=
  list_sum l / inject_Z (Z.of_nat (length l)).

(** The cells of the block at position [(y, x)] of the coarsened grid,
    for windows of [wy] rows and [wx] columns. *)
Definition block (d : DataArray) (wy wx : nat) (t m y x : nat)
  : list (option Q) :=
  i ← seq 0 wy; j ← seq 0 wx; [at4 d t m (y * wy + i)%nat (x * wx + j)%nat].

(** [np.mean]: the arithmetic mean, the sum of the cells divided by their
    number; NaN as soon as one cell is NaN, and for no cell at all. *)
Definition np_mean (cells : list (option Q)) : option Q :=
  match cells with
  | [] => None
  | _ => list_mean <$> mapM id cells
  end.

(** [np.nanmean]: the mean of the cells that are not NaN; NaN when there is
    no such cell. *)
Definition nanmean (cells : list (option Q)) : option Q :=
  match omap id cells with
  | [] => None
  | v :: vs => Some (list_mean (v :: vs))
  end.

(** The reduction applied by the [mean] method of a coarsened cube: for
    floating-point data missing values are skipped ([skipna] left at its
    default). *)
Definition duck_mean : list (option Q) -> option Q := nanmean.

Definition coarsen_reduce (d : DataArray) (height ncells : Z)
           (func : list (option Q) -> option Q) : result DataArray :=
  if bool_decide (height <= 0 \/ ncells <= 0)%Z
  then Raise (ValueError "window must be > 0")
  else if bool_decide ((Z.of_nat (size2 d) `mod` height)%Z <> 0%Z
                       \/ (Z.of_nat (size3 d) `mod` ncells)%Z <> 0%Z)
  then Raise (ValueError "Could not coarsen a dimension with boundary='exact'")
  else
    let wy := Z.to_nat height in
    let wx := Z.to_nat ncells in
    Return (mkTensor4 (size0 d) (size1 d)
              (size2 d / wy)%nat (size3 d / wx)%nat
              (fun t m y x => func (block d wy wx t m y x))).

(** [data.coarsen(...).mean()] *)
Definition coarsen_mean (d : DataArray) (height ncells : Z) : result DataArray :=
  coarsen_reduce d height ncells duck_mean.

End Xr.

Module TrainCnn.

(** [downscale_data] of train_cnn.py. *)
Definition downscale_data (data : DataArray) (factor : Z) : result DataArray :=
  (* Coarsen the height and ncells dimensions by the given factor *)
  Xr.coarsen_mean data factor factor.

End TrainCnn.

(** ** The experiment-tracking client *)

Module Mlflow.

Record Run : Type := mkRun { run_id : string }.

(** What [search_runs] returns: a data frame with one row per run (the
    default, [output_format="pandas"]) or a list of runs. *)
Inductive search_result : Type :=
| DataFrame (rows : list Run)
| RunList (runs : list Run).

Inductive output_format : Type := pandas | list_format.

(** The tracking server, as the runs it holds for a given
    [experiment_names] argument. *)
Definition server : Type := string -> list Run.

Definition search_runs (srv : server) (experiment_names : string)
           (fmt : output_format) : search_result :=
  match fmt with
  | pandas => DataFrame (srv experiment_names)
  | list_format => RunList (srv experiment_names)
  end.

Definition runs_of (r : search_result) : list Run :=
  match r with
  | DataFrame rows => rows
  | RunList runs => runs
  end.

(** Truth value of a search result: a list is true when it is not empty;
    a data frame has no truth value and raises [ValueError]. *)
Definition truth (r : search_result) : result bool :=
  match r with
  | RunList runs => Return (negb (bool_decide (runs = [])))
  | DataFrame _ =>
      Raise (ValueError "The truth value of a DataFrame is ambiguous.")
  end.

End Mlflow.

(** ** utils.py *)

(** ** The aliases of [typing]

    [Dict[str, bool]] is an alias for annotations.  Calling it does not
    build a dictionary: it raises [TypeError], whatever the arguments. *)

Module Typing.

Definition Dict_call {V} (kwargs : gmap string V) : result (gmap string V) :=
  Raise (TypeError "Type Dict cannot be instantiated; use dict() instead").

End Typing.

Module Utils.

(** [downscale_data] of utils.py.  The argument of [dask.config.set] is
    evaluated first, on entering the [with] statement. *)
Definition downscale_data (data : DataArray) (factor : Z) : result DataArray :=
  _ ← Typing.Dict_call {[ "array.slicing.split_large_chunks" := false ]};
  (* Coarsen the height and ncells dimensions by the given factor *)
  Xr.coarsen_reduce data factor factor Xr.np_mean.

Definition get_runs (srv : Mlflow.server) (experiment_name : string)
  : result Mlflow.search_result :=
  let runs := Mlflow.search_runs srv experiment_name Mlflow.pandas in
  b ← Mlflow.truth runs;
  if negb b
  then Raise (ValueError ("No runs found in experiment: " +:+ experiment_name))
  else Return runs.

(** Values of the JSON configuration. *)
Inductive json : Type :=
| JNull
| JBool (b : bool)
| JInt (z : Z)
| JStr (s : string).

(** [config[key]] *)
Definition getitem (config : gmap string json) (key : string) : result json :=
  match config !! key with
  | Some v => Return v
  | None => Raise (KeyError key)
  end.

(** [v > 1] on a configuration value: integers compare as numbers (a
    Boolean counts as 0 or 1), anything else cannot be ordered with an
    integer. *)
Definition gt_one (v : json) : result bool :=
  match v with
  | JInt z => Return (1 <? z)
  | JBool _ => Return false
  | JNull | JStr _ => Raise (TypeError "'>' not supported")
  end.

(** The window lengths passed to [coarsen]. *)
Definition as_window (v : json) : result Z :=
  match v with
  | JInt z => Return z
  | JBool b => Return (if b then 1 else 0)
  | JNull | JStr _ => Raise (TypeError "window must be an integer")
  end.

Section LoadConfigAndData.
(** Reading the two data cubes from disk. *)
Variable load_data : gmap string json -> result (DataArray * DataArray).

(** [config] is the content of the configuration file as parsed by
    [json.load]. *)
Definition load_config_and_data (config : gmap string json)
  : result (gmap string json * DataArray * DataArray) :=
  '(data_train, data_test) ← load_data config;
  coarsen ← getitem config "coarsen";
  b ← gt_one coarsen;
  if b : bool then
    (* Coarsen the data *)
    factor ← as_window coarsen;
    data_test ← downscale_data data_test factor;
    data_train ← downscale_data data_train factor;
    mret (config, data_train, data_test)
  else
    mret (config, data_train, data_test).
End LoadConfigAndData.

End Utils.

(** ** Statements about coarsened cubes *)

(** A cube of two by two cells whose first cell is missing. *)
Definition cube_with_nan : DataArray :=
  mkTensor4 1 1 2 2
    (fun _ _ y x =>
       match y, x with
       | O, O => None
       | O, _ => Some 1%Q
       | _, O => Some 2%Q
       | _, _ => Some 3%Q
       end).

(** A cube of two by two cells holding the numbers 0, 1, 2 and 3. *)
Definition cube_of_numbers : DataArray :=
  mkTensor4 1 1 2 2 (fun _ _ y x => Some (inject_Z (Z.of_nat (2 * y + x)))).

(** [out] has the extents of [d] divided by [f] along height and ncells, the
    other extents unchanged, and every cell of [out] whose block of [f] by
    [f] cells of [d] holds numbers only is their arithmetic mean. *)
Definition block_means_of (d out : DataArray) (f : nat) : Prop :=
  size0 out = size0 d /\ size1 out = size1 d /\
  size2 out = (size2 d / f)%nat /\ size3 out = (size3 d / f)%nat /\
  forall t m y x vals,
    (t < size0 out)%nat -> (m < size1 out)%nat ->
    (y < size2 out)%nat -> (x < size3 out)%nat ->
    Xr.block d f f t m y x = Some <$> vals ->
    length vals = (f * f)%nat /\
    at4 out t m y x = Some (Xr.list_mean vals).

(** The results are the same: the same exception, or cubes with the same
    shape and the same cells. *)
Definition same_result (r1 r2 : result DataArray) : Prop :=
  match r1, r2 with
  | Return a, Return b => tensor_eq a b
  | Raise e1, Raise e2 => e1 = e2
  | _, _ => False
  end.

(** * Further parts of the two files *)

(** ** Counting the cropped skip connections of [UNet.forward]

    The number of decoder stages at which an input of height [h] and width
    [w] makes the decoder map differ from the encoder map: the stage at an
    eighth, a quarter and half of the resolution is cropped when the
    remainder of [h] or of [w] by 8 reaches 4, 2 and 1. *)
Definition crops_needed (h w : nat) : nat :=
  ((if bool_decide (4 <= h mod 8 \/ 4 <= w mod 8) then 1 else 0)
   + (if bool_decide (2 <= h mod 8 \/ 2 <= w mod 8) then 1 else 0)
   + (if bool_decide (1 <= h mod 8 \/ 1 <= w mod 8) then 1 else 0))%nat.

(** [r] is a contiguous window of the spatial extent of [t]: the same
    batches and channels, and the rows and columns of [t] from some offset
    on. *)
Definition window_of {A} (t r : Tensor4 A) : Prop :=
  exists oy ox : nat,
    size0 r = size0 t /\ size1 r = size1 t /\
    (oy + size2 r <= size2 t)%nat /\ (ox + size3 r <= size3 t)%nat /\
    forall n c y x,
      (y < size2 r)%nat -> (x < size3 r)%nat ->
      at4 r n c y x = at4 t n c (oy + y)%nat (ox + x)%nat.

(** ** Batches

    The default collation of a data loader stacks the items of a batch along
    a new leading axis: [b] items of shape (members, height, ncells) give a
    tensor of shape (b, members, height, ncells). *)
Definition batch_shape {A} (b : nat) (item : Array3 A) : Tensor4 unit :=
  Torch.blank b (len0 item) (len1 item) (len2 item).

(** ** Exceptions of the training and evaluation loops

    Beside the exceptions of [exn], the loops can raise the interpreter's
    [ZeroDivisionError] and [UnboundLocalError], and the tracking client its
    [MlflowException]. *)
Inductive raised : Type :=
| Builtin (e : exn)
| ZeroDivisionError
| UnboundLocalError (name : string)
| MlflowException (msg : string).

Inductive outcome (A : Type) : Type :=
| Ok (a : A)
| Err (e : raised).
Arguments Ok {A} a.
Arguments Err {A} e.

#[global] Instance outcome_ret : MRet outcome := fun A a => Ok a.
#[global] Instance outcome_bind : MBind outcome := fun A B k m =>
  match m with
  | Ok a => k a
  | Err e => Err e
  end.

(** ** [UNet.train_model] and [UNet.evaluate] (train_cnn.py)

    The loops are followed over abstract batches: [call] is the forward pass
    of the network in its current state, [loss_fn] and [loss_fn_masked] the
    loss called with two and with three arguments, [batch_len] the length
    of an output (its number of samples) and [optimize] the effect of
    [zero_grad], [backward], [optimizer.step] and [scheduler.step] on the
    network. *)

Module Loops.
Section Loops.
Context {Net Input Target Output Mask : Type}.
Variable call : Net -> Input -> Output.
Variable loss_fn : Output -> Target -> Float.t.
Variable loss_fn_masked : Output -> Target -> Mask -> Float.t.
Variable batch_len : Output -> nat.
Variable optimize : Net -> Input -> Target -> option Mask -> Net.

(** What the loops send to the tracking server. *)
Inductive event : Type :=
| LogMetric (key : string) (value : Float.t)
| LogModel (net : Net).

(** [loss_fn(output, target, mask)] or [loss_fn(output, target)]. *)
Definition compute_loss (output : Output) (target : Target)
           (mask : option Mask) : Float.t :=
  match mask with
  | Some m => loss_fn_masked output target m
  | None => loss_fn output target
  end.

(** The body of [evaluate]'s loop over the batches. *)
Fixpoint evaluate_loop (self : Net) (dataloader : list (Input * Target))
         (mask : option Mask) (loss : Float.t) (y_preds : option (list Output))
  : Float.t * option (list Output) :=
  match dataloader with
  | [] => (loss, y_preds)
  | (input_data, target_data) :: rest =>
      let output := call self input_data in
      let loss := Float.add loss (compute_loss output target_data mask) in
      let y_preds := (fun l => l ++ [output]) <$> y_preds in
      evaluate_loop self rest mask loss y_preds
  end.

Definition evaluate (self : Net) (dataloader : list (Input * Target))
           (mask : option Mask) (return_predictions : bool)
  : outcome (Float.t * option (list Output)) :=
  let loss := Float.zero in
  let y_preds := if return_predictions then Some [] else None in
  let '(loss, y_preds) := evaluate_loop self dataloader mask loss y_preds in
  if bool_decide (length dataloader = 0%nat) then Err ZeroDivisionError
  else
    let loss := Float.div loss (Float.of_nat (length dataloader)) in
    Ok (loss, y_preds).

(** The state of [train_model] inside an epoch: the network, the running
    loss, the last average (unbound before the first batch ever) and what
    has been logged. *)
Fixpoint train_batches (self : Net) (dataloader : list (Input * Target))
         (mask : option Mask) (running_loss : Float.t) (avg_loss : option Float.t)
         (log : list event)
  : outcome (Net * option Float.t * list event) :=
  match dataloader with
  | [] => Ok (self, avg_loss, log)
  | (input_data, target_data) :: rest =>
      let output := call self input_data in
      let loss := compute_loss output target_data mask in
      let self := optimize self input_data target_data mask in
      let running_loss := Float.add running_loss loss in
      if bool_decide (batch_len output = 0%nat) then Err ZeroDivisionError
      else
        let avg_loss := Float.div running_loss (Float.of_nat (batch_len output)) in
        train_batches self rest mask running_loss (Some avg_loss)
                      (log ++ [LogMetric "loss" avg_loss])
  end.

Fixpoint train_epochs (num_epochs : nat) (self : Net)
         (dataloader : list (Input * Target)) (mask : option Mask)
         (best_loss : Float.t) (avg_loss : option Float.t) (log : list event)
  : outcome (Net * list event) :=
  match num_epochs with
  | O => Ok (self, log)
  | S remaining =>
      '(self, avg_loss, log) ←
        train_batches self dataloader mask Float.zero avg_loss log;
      match avg_loss with
      | None => Err (UnboundLocalError "avg_loss")
      | Some avg =>
          if Float.ltb avg best_loss
          then train_epochs remaining self dataloader mask
                            avg avg_loss (log ++ [LogModel self])
          else train_epochs remaining self dataloader mask
                            best_loss avg_loss log
      end
  end.

Definition train_model (self : Net) (dataloader : list (Input * Target))
           (mask : option Mask) (num_epochs : nat)
  : outcome (Net * list event) :=
  let best_loss := Float.PInf in
  train_epochs num_epochs self dataloader mask best_loss None [].

(** The metrics and the checkpoints of a log, and the loss each checkpoint
    was logged with: the metric logged last before it. *)
Definition metrics (log : list event) : list Float.t :=
  omap (fun e => match e with LogMetric _ v => Some v | LogModel _ => None end) log.

Definition checkpoints (log : list event) : list Net :=
  omap (fun e => match e with LogModel m => Some m | LogMetric _ _ => None end) log.

Fixpoint checkpoint_losses (last : option Float.t) (log : list event)
  : list Float.t :=
  match log with
  | [] => []
  | LogMetric _ v :: rest => checkpoint_losses (Some v) rest
  | LogModel _ :: rest =>
      match last with
      | Some v => v :: checkpoint_losses last rest
      | None => checkpoint_losses last rest
      end
  end.

End Loops.
End Loops.

(** The metric logged last, [last] when the log has none. *)
Definition last_metric {Net} (last : option Float.t) (log : list (@Loops.event Net))
  : option Float.t :=
  foldl (fun acc e =>
           match e with
           | Loops.LogMetric _ v => Some v
           | Loops.LogModel _ => acc
           end) last log.

Definition is_metric {Net} (e : @Loops.event Net) : Prop :=
  match e with
  | Loops.LogMetric _ _ => True
  | Loops.LogModel _ => False
  end.

(** The numbers get smaller from each position of the list to every later
    one, in the order of floating-point numbers. *)
Definition decreasing (l : list Float.t) : Prop :=
  forall i j a b,
    (i < j)%nat -> l !! i = Some a -> l !! j = Some b -> Float.ltb b a = true.

(** The sum of a list of floating-point numbers, added up from the left
    starting with zero. *)
Definition float_sum (l : list Float.t) : Float.t := foldl Float.add Float.zero l.

(** ** [setup_mlflow] (utils.py; the same steps are in the script of
    train_cnn.py)

    The tracking store at the URI set by [set_tracking_uri]: the artifact
    location of every experiment it holds, by name, and the active
    experiment.  All experiments of the store are live ones; deleted
    experiments are not part of the model. *)

Module Tracking.

Record t : Type := mk {
  experiments : gmap string string;
  active : option string
}.

(** [needle in hay] on strings. *)
Fixpoint contains (needle hay : string) : bool :=
  if String.prefix needle hay then true
  else match hay with
       | EmptyString => false
       | String _ rest => contains needle rest
       end.

Definition get_experiment_by_name (store : t) (name : string) : option string :=
  experiments store !! name.

(** [mlflow.create_experiment]: refused when the name is taken. *)
Definition create_experiment (store : t) (name artifact_location : string)
  : outcome t :=
  match experiments store !! name with
  | Some _ => Err (MlflowException "Experiment already exists")
  | None => Ok (mk (<[name := artifact_location]> (experiments store))
                   (active store))
  end.

(** [mlflow.set_experiment]: makes the experiment active, creating it at the
    store's default location when it does not exist. *)
Definition set_experiment (default_location : string -> string)
           (store : t) (name : string) : t :=
  match experiments store !! name with
  | Some _ => mk (experiments store) (Some name)
  | None => mk (<[name := default_location name]> (experiments store))
               (Some name)
  end.

Definition setup_mlflow (default_location : string -> string)
           (hostname : string) (store : t) : outcome (string * string * t) :=
  (* Set the artifact path based on the hostname *)
  let '(artifact_path, experiment_name) :=
    if contains "nid" hostname
    then ("/scratch/e1000/meteoswiss/scratch/sadamov/pyprojects_data/weathergraphnet/mlruns",
          "WGN_balfrin")
    else ("/scratch/sadamov/pyprojects_data/weathergraphnet/mlruns", "WGN") in
  let existing_experiment := get_experiment_by_name store experiment_name in
  store ← match existing_experiment with
          | None => create_experiment store experiment_name artifact_path
          | Some _ => Ok store
          end;
  let store := set_experiment default_location store experiment_name in
  Ok (artifact_path, experiment_name, store).

End Tracking.

(** ** [load_best_model] (utils.py) *)

Section LoadBestModel.
Context {Net : Type}.
(** [mlflow.get_artifact_uri()], the normalisation
    [os.path.abspath(os.path.join(path, "../../"))], [os.path.join] and
    [mlflow.pytorch.load_model]. *)
Variable get_artifact_uri : string.
Variable abspath_up2 : string -> string.
Variable path_join : list string -> string.
Variable load_model : string -> result Net.

(** [runs[0]["run_id"]]: a data frame is indexed by column labels, which are
    strings; a list gives its first run, which cannot be subscripted. *)
Definition first_run_id (runs : Mlflow.search_result) : result string :=
  match runs with
  | Mlflow.DataFrame _ => Raise (KeyError "0")
  | Mlflow.RunList [] => Raise (IndexError "list index out of range")
  | Mlflow.RunList (_ :: _) => Raise (TypeError "'Run' object is not subscriptable")
  end.

Definition load_best_model (srv : Mlflow.server) (experiment_name : string)
  : result Net :=
  runs ← Utils.get_runs srv experiment_name;
  run_id ← first_run_id runs;
  let best_model_path := get_artifact_uri in
  let best_model_path := abspath_up2 best_model_path in
  let best_model_path := path_join [best_model_path; run_id; "artifacts"; "models"] in
  model ← load_model best_model_path;
  mret model.

End LoadBestModel.

(** ** Cells up to the value of the number *)

(** Two cells are the same: both missing, or numbers of the same value. *)
Definition cell_eq (a b : option Q) : Prop :=
  match a, b with
  | Some u, Some v => (u == v)%Q
  | None, None => True
  | _, _ => False
  end.

(** The window divides both coarsened extents of the cube. *)
Definition coarsenable (d : DataArray) (factor : Z) : Prop :=
  0 < factor /\ (factor | Z.of_nat (size2 d)) /\ (factor | Z.of_nat (size3 d)).

(** ** Statements about the loss functions

    What a loss function returns on finite numbers is stated over lists of
    rationals: the values of the cells of a tensor, their arithmetic mean
    ([Xr.list_mean]) and their unbiased variance. *)

(** The positions of a grid of the given extents, in row-major order, and
    the positions of a tensor. *)
Definition grid (s0 s1 s2 s3 : nat) : list (nat * nat * nat * nat) :=
  n ← seq 0 s0; c ← seq 0 s1; y ← seq 0 s2; x ← seq 0 s3; [(n, c, y, x)].

Definition positions {A} (t : Tensor4 A) : list (nat * nat * nat * nat) :=
  grid (size0 t) (size1 t) (size2 t) (size3 t).

(** The rational held at a position of a tensor of finite numbers. *)
Definition value (a : Tensor4 Float.t) (p : nat * nat * nat * nat) : Q :=
  let '(n, c, y, x) := p in Float.to_Q (at4 a n c y x).

(** The entries of [a] are finite numbers with the values [g]. *)
Definition holds (a : Tensor4 Float.t) (g : nat * nat * nat * nat -> Q) : Prop :=
  forall n c y x,
    (n < size0 a)%nat -> (c < size1 a)%nat ->
    (y < size2 a)%nat -> (x < size3 a)%nat ->
    exists v, at4 a n c y x = Float.Fin v /\ (v == g (n, c, y, x))%Q.

(** The absolute errors [|outputs - target|] of all cells. *)
Definition abs_errors (outputs target : Tensor4 Float.t) : list Q :=
  (fun p => Qabs (value outputs p - value target p)) <$> positions outputs.

(** The values of the ensemble members at one sample and grid cell. *)
Definition members (a : Tensor4 Float.t) (n y x : nat) : list Q :=
  (fun c => Float.to_Q (at4 a n c y x)) <$> seq 0 (size1 a).

(** The unbiased sample variance: the sum of the squared deviations from
    the mean, divided by the number of values less one. *)
Definition variance (l : list Q) : Q :=
  (Xr.list_sum ((fun v => (v - Xr.list_mean l) * (v - Xr.list_mean l)) <$> l)
   / (inject_Z (Z.of_nat (length l)) - 1))%Q.

(** The variance of the ensemble at every sample and grid cell. *)
Definition ensemble_variances (a : Tensor4 Float.t) : list Q :=
  (fun '(n, _, y, x) => variance (members a n y x))
  <$> grid (size0 a) 1 (size2 a) (size3 a).

(** The positions the mask leaves unmasked (entry 1), and the losses
    there. *)
Definition unmasked_positions (mask : Tensor4 Float.t)
  : list (nat * nat * nat * nat) :=
  filter (fun p => Qeq_bool (value mask p) 1 = true) (positions mask).

Definition unmasked_losses (loss mask : Tensor4 Float.t) : list Q :=
  value loss <$> unmasked_positions mask.

(** [k * a], entry by entry. *)
Definition scale (k : Float.t) (a : Tensor4 Float.t) : Tensor4 Float.t :=
  mkTensor4 (size0 a) (size1 a) (size2 a) (size3 a)
            (fun n c y x => Float.mul k (at4 a n c y x)).

(** Every entry of [a] has the value [v]. *)
Definition constant (a : Tensor4 Float.t) (v : Float.t) : Prop :=
  forall n c y x,
    (n < size0 a)%nat -> (c < size1 a)%nat ->
    (y < size2 a)%nat -> (x < size3 a)%nat ->
    Float.same (at4 a n c y x) v.

(** All ensemble members (the entries along axis 1) are the same. *)
Definition same_members (a : Tensor4 Float.t) : Prop :=
  forall n c y x,
    (n < size0 a)%nat -> (c < size1 a)%nat ->
    (y < size2 a)%nat -> (x < size3 a)%nat ->
    Float.same (at4 a n c y x) (at4 a n 0%nat y x).

(** Two loss functions for [MaskedLoss]: the element-wise absolute error
    ([nn.L1Loss(reduction='none')]) and its mean, a single number
    ([nn.L1Loss()]). *)
Definition l1_elementwise (outputs target : Tensor4 Float.t)
  : result (Tensor4 Float.t) :=
  T.abs <$> T.sub outputs target.

Definition l1_mean (outputs target : Tensor4 Float.t)
  : result (Tensor4 Float.t) :=
  (fun diff => T.scalar (T.mean (T.abs diff))) <$> T.sub outputs target.

(** * Properties *)

(** ** Slices *)

Lemma adjust_index_inside (len i : Z) :
  0 <= i <= len -> PySlice.adjust_index len i = i.
Proof.
  intros H. unfold PySlice.adjust_index.
  destruct (Z.ltb_spec i 0); lia.
Qed.

Lemma range_inside (a b : Z) (len : nat) :
  0 <= a <= b -> b <= Z.of_nat len ->
  PySlice.range (Some a, Some b) len = (Z.to_nat a, Z.to_nat (b - a)).
Proof.
  intros Ha Hb. unfold PySlice.range. simpl.
  rewrite !adjust_index_inside by lia.
  f_equal. f_equal. lia.
Qed.

Lemma range_full (len : nat) : PySlice.range PySlice.full len = (0%nat, len).
Proof.
  unfold PySlice.range, PySlice.full. simpl.
  f_equal; lia.
Qed.

Lemma getitem_hw_inside {A} (t : Tensor4 A) (a b c d : Z) :
  0 <= a <= b -> b <= Z.of_nat (size2 t) ->
  0 <= c <= d -> d <= Z.of_nat (size3 t) ->
  getitem_hw t (Some a, Some b) (Some c, Some d)
  = mkTensor4 (size0 t) (size1 t) (Z.to_nat (b - a)) (Z.to_nat (d - c))
      (fun n ch y x => at4 t n ch (Z.to_nat a + y)%nat (Z.to_nat c + x)%nat).
Proof.
  intros. unfold getitem_hw. rewrite !range_inside by assumption. reflexivity.
Qed.

Lemma getitem_w_inside {A} (t : Tensor4 A) (c d : Z) :
  0 <= c <= d -> d <= Z.of_nat (size3 t) ->
  getitem_hw t PySlice.full (Some c, Some d)
  = mkTensor4 (size0 t) (size1 t) (size2 t) (Z.to_nat (d - c))
      (fun n ch y x => at4 t n ch (0 + y)%nat (Z.to_nat c + x)%nat).
Proof.
  intros. unfold getitem_hw. rewrite range_full, range_inside by assumption.
  reflexivity.
Qed.

Lemma getitem_h_inside {A} (t : Tensor4 A) (a b : Z) :
  0 <= a <= b -> b <= Z.of_nat (size2 t) ->
  getitem_hw t (Some a, Some b) PySlice.full
  = mkTensor4 (size0 t) (size1 t) (Z.to_nat (b - a)) (size3 t)
      (fun n ch y x => at4 t n ch (Z.to_nat a + y)%nat (0 + x)%nat).
Proof.
  intros. unfold getitem_hw. rewrite range_full, range_inside by assumption.
  reflexivity.
Qed.

(** ** [UNet.crop] *)

(** Closes [tensor_eq t (trim ...)] once both sides are explicit: the shapes
    and the shifted positions agree by linear arithmetic. *)
Ltac same_tensor :=
  split;
  [ unfold shape, UNet.trim; cbn [size0 size1 size2 size3]; repeat f_equal; lia
  | intros ? ? ? ? _ _ _ _; unfold UNet.trim; cbn [at4]; f_equal; lia ].

Section Crop.
Context {A : Type}.
Implicit Types enc dec : Tensor4 A.

(** What [crop] computes when the encoder map is at least as large as the
    decoder map: it drops [d - d/2] leading and [d/2] trailing positions
    on each spatial axis, [d] being the difference of the extents. *)
Lemma crop_as_trim enc dec :
  (size2 dec <= size2 enc)%nat -> (size3 dec <= size3 enc)%nat ->
  let dY := (size2 enc - size2 dec)%nat in
  let dX := (size3 enc - size3 dec)%nat in
  tensor_eq (UNet.crop enc dec)
            (UNet.trim enc (dY - dY / 2) (dY / 2) (dX - dX / 2) (dX / 2)).
Proof.
  intros HY HX dY dX.
  unfold UNet.crop.
  set (zY := Z.of_nat (size2 enc) - Z.of_nat (size2 dec)).
  set (zX := Z.of_nat (size3 enc) - Z.of_nat (size3 dec)).
  assert (EY : zY = Z.of_nat dY) by (unfold zY, dY; lia).
  assert (EX : zX = Z.of_nat dX) by (unfold zX, dX; lia).
  assert (QY : zY / 2 = Z.of_nat (dY / 2)) by (rewrite EY, Nat2Z.inj_div; reflexivity).
  assert (QX : zX / 2 = Z.of_nat (dX / 2)) by (rewrite EX, Nat2Z.inj_div; reflexivity).
  assert (BY : (2 * (dY / 2) <= dY)%nat) by (apply Nat.Div0.mul_div_le).
  assert (BX : (2 * (dX / 2) <= dX)%nat) by (apply Nat.Div0.mul_div_le).
  assert (MY : zY mod 2 = Z.of_nat dY - 2 * Z.of_nat (dY / 2)).
  { rewrite Z.mod_eq by lia. rewrite QY, EY. reflexivity. }
  assert (MX : zX mod 2 = Z.of_nat dX - 2 * Z.of_nat (dX / 2)).
  { rewrite Z.mod_eq by lia. rewrite QX, EX. reflexivity. }
  cbv zeta.
  rewrite (getitem_hw_inside enc) by lia.
  cbn [size0 size1 size2 size3 at4].
  destruct (Z.eqb_spec (zX mod 2) 1) as [OX|OX].
  - rewrite getitem_w_inside by (cbn [size3]; lia).
    cbn [size0 size1 size2 size3 at4].
    destruct (Z.eqb_spec (zY mod 2) 1) as [OY|OY].
    + rewrite getitem_h_inside by (cbn [size2]; lia).
      same_tensor.
    + pose proof (Z.mod_pos_bound zY 2).
      same_tensor.
  - pose proof (Z.mod_pos_bound zX 2).
    destruct (Z.eqb_spec (zY mod 2) 1) as [OY|OY].
    + rewrite getitem_h_inside by (cbn [size2]; lia).
      same_tensor.
    + pose proof (Z.mod_pos_bound zY 2).
      same_tensor.
Qed.

End Crop.

(** C1. For encoder and decoder maps with encoder height >= decoder height
    and encoder width >= decoder width, [UNet.crop] returns a tensor with
    the batch and channel sizes of the encoder map and the height and width
    of the decoder map. *)
Theorem crop_shape {A} (encoder_layer decoder_layer : Tensor4 A) :
  (size2 decoder_layer <= size2 encoder_layer)%nat ->
  (size3 decoder_layer <= size3 encoder_layer)%nat ->
  shape (UNet.crop encoder_layer decoder_layer)
  = (size0 encoder_layer, size1 encoder_layer,
     size2 decoder_layer, size3 decoder_layer).
Proof.
  intros HY HX.
  destruct (crop_as_trim encoder_layer decoder_layer HY HX) as [-> _].
  unfold shape, UNet.trim; cbn [size0 size1 size2 size3].
  pose proof (Nat.Div0.mul_div_le (size2 encoder_layer - size2 decoder_layer) 2).
  pose proof (Nat.Div0.mul_div_le (size3 encoder_layer - size3 decoder_layer) 2).
  repeat f_equal; lia.
Qed.

Lemma crop_shape_witness :
  shape (UNet.crop (mkTensor4 2 3 7 6 (fun n c y x => (n + c + y + x)%nat))
                   (mkTensor4 2 5 4 3 (fun _ _ _ _ => 0%nat)))
  = (2, 3, 4, 3)%nat.
Proof.
  apply (crop_shape (mkTensor4 2 3 7 6 (fun n c y x => (n + c + y + x)%nat))
                    (mkTensor4 2 5 4 3 (fun _ _ _ _ => 0%nat))); simpl; lia.
Defined.

(** C2 (as stated, refuted).  A 3x3 encoder map cropped to a 2x2 decoder map
    is not a symmetric crop: one row and one column are removed at the
    leading side and none at the trailing side. *)
Lemma crop_not_symmetric :
  let enc := mkTensor4 1 1 3 3 (fun _ _ y x => (3 * y + x)%nat) in
  let dec := mkTensor4 1 1 2 2 (fun _ _ _ _ => 0%nat) in
  (size2 dec <= size2 enc)%nat /\ (size3 dec <= size3 enc)%nat /\
  ~ UNet.symmetric_crop_of enc (UNet.crop enc dec).
Proof.
  intros enc dec. split; [simpl; lia|]. split; [simpl; lia|].
  intros (ky & kx & Hshape & _).
  unfold shape in Hshape. vm_compute in Hshape.
  injection Hshape as Hh Hw.
  destruct ky as [|[|[|ky]]]; simpl in Hh; lia.
Qed.

(** C2 (amended).  With encoder extents at least the decoder's, [UNet.crop]
    removes, along each spatial axis with extent difference [d], [d / 2]
    positions at the trailing side and [d / 2 + d mod 2] positions at the
    leading side: the same number on both sides when [d] is even, one more
    at the leading side when [d] is odd. *)
Theorem crop_leading_trailing {A} (encoder_layer decoder_layer : Tensor4 A) :
  (size2 decoder_layer <= size2 encoder_layer)%nat ->
  (size3 decoder_layer <= size3 encoder_layer)%nat ->
  let dY := (size2 encoder_layer - size2 decoder_layer)%nat in
  let dX := (size3 encoder_layer - size3 decoder_layer)%nat in
  tensor_eq (UNet.crop encoder_layer decoder_layer)
            (UNet.trim encoder_layer
               (dY / 2 + dY mod 2) (dY / 2) (dX / 2 + dX mod 2) (dX / 2)) /\
  (Nat.even dY = true -> Nat.even dX = true ->
   UNet.symmetric_crop_of encoder_layer (UNet.crop encoder_layer decoder_layer)).
Proof.
  intros HY HX dY dX.
  pose proof (crop_as_trim encoder_layer decoder_layer HY HX) as H.
  cbv zeta in H. fold dY dX in H.
  pose proof (Nat.div_mod_eq dY 2) as EY.
  pose proof (Nat.div_mod_eq dX 2) as EX.
  replace (dY - dY / 2)%nat with (dY / 2 + dY mod 2)%nat in H by lia.
  replace (dX - dX / 2)%nat with (dX / 2 + dX mod 2)%nat in H by lia.
  split; [exact H|].
  intros EvY EvX.
  exists (dY / 2)%nat, (dX / 2)%nat.
  apply Nat.even_spec in EvY as [ky Hky], EvX as [kx Hkx].
  assert (dY mod 2 = 0)%nat as MY
    by (rewrite Hky, Nat.mul_comm; apply Nat.Div0.mod_mul).
  assert (dX mod 2 = 0)%nat as MX
    by (rewrite Hkx, Nat.mul_comm; apply Nat.Div0.mod_mul).
  rewrite MY, MX, !Nat.add_0_r in H. exact H.
Qed.

Lemma crop_leading_trailing_witness :
  let enc := mkTensor4 1 1 5 4 (fun _ _ y x => (4 * y + x)%nat) in
  let dec := mkTensor4 1 1 2 2 (fun _ _ _ _ => 0%nat) in
  tensor_eq (UNet.crop enc dec) (UNet.trim enc 2 1 1 1) /\
  (Nat.even 3 = true -> Nat.even 2 = true ->
   UNet.symmetric_crop_of enc (UNet.crop enc dec)).
Proof.
  intros enc dec.
  apply (crop_leading_trailing enc dec); simpl; lia.
Defined.

(** ** [UNet.forward] *)

Lemma window_out_conv3 (n : nat) : Torch.window_out n 3 1 1 = n.
Proof. unfold Torch.window_out. rewrite Z.div_1_r. lia. Qed.

Lemma window_out_conv1 (n : nat) : Torch.window_out n 1 1 0 = n.
Proof. unfold Torch.window_out. rewrite Z.div_1_r. lia. Qed.

Lemma window_out_pool_div (n : nat) : Torch.window_out n 2 2 0 = (n / 2)%nat.
Proof.
  unfold Torch.window_out.
  replace (Z.of_nat n + 2 * Z.of_nat 0 - (Z.of_nat 2 - 1) - 1)
    with (Z.of_nat n + (-1) * 2) by lia.
  rewrite Z.div_add by lia.
  change (Z.of_nat 2) with (Z.of_nat 2%nat).
  rewrite <- (Nat2Z.inj_div n 2). lia.
Qed.

Lemma transposed_out_2 (m : nat) : Torch.transposed_out m 2 2 = (2 * m)%nat.
Proof. unfold Torch.transposed_out. lia. Qed.

Lemma no_cells_false {A} (x : Tensor4 A) :
  (0 < size1 x)%nat -> (0 < size2 x)%nat -> (0 < size3 x)%nat ->
  Torch.no_cells x = false.
Proof. intros. unfold Torch.no_cells. apply bool_decide_eq_false_2. lia. Qed.

(** A convolution with a kernel of 3 and a padding of 1 keeps the spatial
    extent of an input that has cells. *)
Lemma conv3_ok (c_in c_out : nat) (x : Tensor4 unit) :
  size1 x = c_in -> (0 < c_in)%nat -> (0 < c_out)%nat ->
  (0 < size2 x)%nat -> (0 < size3 x)%nat ->
  Torch.conv2d (Torch.mkConv2d c_in c_out 3 1) x
  = Return (Torch.blank (size0 x) c_out (size2 x) (size3 x)).
Proof.
  intros E Hi Ho Hh Hw. unfold Torch.conv2d.
  cbn [Torch.conv_in Torch.conv_out Torch.conv_kernel Torch.conv_padding].
  rewrite bool_decide_eq_false_2 by lia.
  rewrite bool_decide_eq_false_2 by (intros ?; done).
  rewrite no_cells_false by lia.
  rewrite bool_decide_eq_false_2 by lia.
  by rewrite !window_out_conv3.
Qed.

(** So does a convolution with a kernel of 1 and no padding. *)
Lemma conv1_ok (c_in c_out : nat) (x : Tensor4 unit) :
  size1 x = c_in -> (0 < c_in)%nat -> (0 < c_out)%nat ->
  (0 < size2 x)%nat -> (0 < size3 x)%nat ->
  Torch.conv2d (Torch.mkConv2d c_in c_out 1 0) x
  = Return (Torch.blank (size0 x) c_out (size2 x) (size3 x)).
Proof.
  intros E Hi Ho Hh Hw. unfold Torch.conv2d.
  cbn [Torch.conv_in Torch.conv_out Torch.conv_kernel Torch.conv_padding].
  rewrite bool_decide_eq_false_2 by lia.
  rewrite bool_decide_eq_false_2 by (intros ?; done).
  rewrite no_cells_false by lia.
  rewrite bool_decide_eq_false_2 by lia.
  by rewrite !window_out_conv1.
Qed.

(** A pooling window of 2 with stride 2 halves the extents, rounding down;
    it needs two rows and two columns. *)
Lemma pool2_ok (x : Tensor4 unit) :
  (0 < size1 x)%nat -> (2 <= size2 x)%nat -> (2 <= size3 x)%nat ->
  Torch.max_pool2d (Torch.mkMaxPool2d 2 2) x
  = Return (Torch.blank (size0 x) (size1 x) (size2 x / 2) (size3 x / 2)).
Proof.
  intros Hc Hh Hw. unfold Torch.max_pool2d.
  cbn [Torch.pool_kernel Torch.pool_stride]. cbv zeta.
  rewrite !window_out_pool_div.
  rewrite no_cells_false by lia.
  rewrite bool_decide_eq_false_2; [reflexivity|].
  zify; Z.to_euclidean_division_equations; lia.
Qed.

(** A transposed convolution with a kernel of 2 and stride 2 doubles the
    extents. *)
Lemma upconv2_ok (c_in c_out : nat) (x : Tensor4 unit) :
  size1 x = c_in -> (0 < c_in)%nat -> (0 < c_out)%nat ->
  (0 < size2 x)%nat -> (0 < size3 x)%nat ->
  Torch.conv_transpose2d (Torch.mkConvTranspose2d c_in c_out 2 2) x
  = Return (Torch.blank (size0 x) c_out (2 * size2 x) (2 * size3 x)).
Proof.
  intros E Hi Ho Hh Hw. unfold Torch.conv_transpose2d.
  cbn [Torch.convT_in Torch.convT_out Torch.convT_kernel Torch.convT_stride].
  cbv zeta. rewrite !transposed_out_2.
  rewrite bool_decide_eq_false_2 by lia.
  rewrite bool_decide_eq_false_2 by (intros ?; done).
  rewrite no_cells_false by lia.
  rewrite bool_decide_eq_false_2 by lia.
  reflexivity.
Qed.

Lemma cat1_ok (a b : Tensor4 unit) :
  size0 a = size0 b -> size2 a = size2 b -> size3 a = size3 b ->
  Torch.cat1 a b
  = Return (Torch.blank (size0 a) (size1 a + size1 b) (size2 a) (size3 a)).
Proof. intros. unfold Torch.cat1. rewrite bool_decide_eq_true_2; done. Qed.

Lemma pad_replicate_ok (x : Tensor4 unit) (left : nat) :
  (0 < size1 x)%nat -> (0 < size2 x)%nat -> (0 < size3 x)%nat ->
  Torch.pad_replicate x left 0 0 0
  = Return (Torch.blank (size0 x) (size1 x) (0 + size2 x + 0) (left + size3 x + 0)).
Proof. intros. unfold Torch.pad_replicate. by rewrite no_cells_false by lia. Qed.

Lemma bind_Return {A B} (a : A) (k : A -> result B) : Return a ≫= k = k a.
Proof. reflexivity. Qed.

Lemma fmap_Return {A B} (f : A -> B) (a : A) : f <$> Return a = Return (f a).
Proof. reflexivity. Qed.

Lemma fmap_Return_inv {A B} (f : A -> B) (m : result A) (b : B) :
  f <$> m = Return b -> exists a, m = Return a /\ f a = b.
Proof. destruct m as [a|e]; [|done]. intros [= <-]. eauto. Qed.

Lemma shape_components {A} (t : Tensor4 A) (a b c d : nat) :
  shape t = (a, b, c, d) ->
  size0 t = a /\ size1 t = b /\ size2 t = c /\ size3 t = d.
Proof. unfold shape. intros H. by simplify_eq. Qed.

(** The skip connection of one decoder stage, when the decoder map is not
    larger than the encoder map: the encoder map comes out with the spatial
    extent of the decoder map, and the counter advances when the two
    extents differ. *)
Lemma skip_spec (enc dec : Tensor4 unit) (k : nat) :
  size0 dec = size0 enc -> size1 dec = size1 enc ->
  (size2 dec <= size2 enc)%nat -> (size3 dec <= size3 enc)%nat ->
  exists e,
    UNet.skip enc dec k
    = (e, (k + if bool_decide (size2 dec = size2 enc /\ size3 dec = size3 enc)
               then 0 else 1)%nat) /\
    size0 e = size0 enc /\ size1 e = size1 enc /\
    size2 e = size2 dec /\ size3 e = size3 dec.
Proof.
  intros E0 E1 Hy Hx. unfold UNet.skip, Torch.shape_eqb.
  destruct (decide (shape dec = shape enc)) as [Hs|Hs].
  - rewrite (bool_decide_eq_true_2 _ Hs). cbn [negb].
    unfold shape in Hs. injection Hs as _ _ E2 E3.
    rewrite bool_decide_eq_true_2 by done.
    exists enc. split; [by rewrite Nat.add_0_r|]. done.
  - rewrite (bool_decide_eq_false_2 _ Hs). cbn [negb].
    rewrite bool_decide_eq_false_2.
    2:{ intros [E2 E3]. apply Hs. unfold shape. congruence. }
    exists (UNet.crop enc dec). split; [by rewrite Nat.add_1_r|].
    apply shape_components.
    destruct (crop_as_trim enc dec Hy Hx) as [-> _].
    unfold shape, UNet.trim; cbn [size0 size1 size2 size3].
    pose proof (Nat.Div0.mul_div_le (size2 enc - size2 dec) 2).
    pose proof (Nat.Div0.mul_div_le (size3 enc - size3 dec) 2).
    repeat f_equal; lia.
Qed.

(** One step of the forward pass on explicit shapes: a layer is applied to
    an input it accepts, or a returned value is passed on. *)
Ltac layer_side := cbn [Torch.relu Torch.blank size0 size1 size2 size3]; lia.

Ltac forward_step :=
  first
    [ rewrite conv3_ok by (reflexivity || layer_side)
    | rewrite conv1_ok by (reflexivity || layer_side)
    | rewrite upconv2_ok by (reflexivity || layer_side)
    | rewrite pool2_ok by layer_side
    | rewrite cat1_ok by reflexivity
    | rewrite pad_replicate_ok by layer_side
    | rewrite fmap_Return
    | rewrite bind_Return ];
  cbn [Torch.relu Torch.blank size0 size1 size2 size3].

(** The skip connection in the goal is resolved by [skip_spec]; the cropped
    map is replaced by a map of the shape it is known to have. *)
Ltac skip_step :=
  match goal with
  | |- context [UNet.skip ?enc ?dec ?k] =>
      let e := fresh "e" in
      let E0 := fresh "E" in
      let E1 := fresh "E" in
      let E2 := fresh "E" in
      let E3 := fresh "E" in
      destruct (skip_spec enc dec k) as (e & -> & E0 & E1 & E2 & E3);
      [ reflexivity | reflexivity | layer_side | layer_side |];
      destruct e as [? ? ? ? ?];
      cbn [size0 size1 size2 size3 Torch.relu Torch.blank] in E0, E1, E2, E3 |- *;
      subst
  end.

Lemma div2_thrice (n : nat) : (n / 2 / 2 / 2 = n / 8)%nat.
Proof. rewrite !Nat.Div0.div_div. reflexivity. Qed.

Lemma crops_count (h w : nat) :
  (0
   + (if bool_decide (2 * (h / 2 / 2 / 2) = h / 2 / 2
                      /\ 2 * (w / 2 / 2 / 2) = w / 2 / 2) then 0 else 1)
   + (if bool_decide (2 * (2 * (h / 2 / 2 / 2)) = h / 2
                      /\ 2 * (2 * (w / 2 / 2 / 2)) = w / 2) then 0 else 1)
   + (if bool_decide (2 * (2 * (2 * (h / 2 / 2 / 2))) = h
                      /\ 2 * (2 * (2 * (w / 2 / 2 / 2))) = w) then 0 else 1)
   = crops_needed h w)%nat.
Proof.
  unfold crops_needed.
  rewrite !(Nat.Div0.div_div _ 2 2).
  change (2 * 2)%nat with 4%nat. change (4 * 2)%nat with 8%nat.
  repeat case_bool_decide; zify; Z.to_euclidean_division_equations; lia.
Qed.

Lemma crops_needed_none (h w : nat) :
  (8 | h)%nat -> (8 | w)%nat -> crops_needed h w = 0%nat.
Proof.
  intros [p ->] [q ->]. unfold crops_needed.
  rewrite !Nat.Div0.mod_mul.
  repeat case_bool_decide; lia.
Qed.

(** The forward pass on an input with at least 8 rows and 8 columns, for a
    network with input and output channels: every layer accepts its input,
    the output has 8 * (H / 8) rows, and [crops_needed] columns are added to
    its 8 * (W / 8) columns. *)
Lemma forward_any_size (channels_in channels_out : nat) (x : Tensor4 unit) :
  size1 x = channels_in ->
  (1 <= channels_in)%nat -> (1 <= channels_out)%nat ->
  (8 <= size2 x)%nat -> (8 <= size3 x)%nat ->
  exists out,
    UNet.forward_body (UNet.init channels_in channels_out) x
    = Return (out, crops_needed (size2 x) (size3 x)) /\
    shape out = (size0 x, channels_out,
                 8 * (size2 x / 8), 8 * (size3 x / 8))%nat /\
    shape <$> UNet.forward (UNet.init channels_in channels_out) x
    = Return (size0 x, channels_out, 8 * (size2 x / 8),
              crops_needed (size2 x) (size3 x) + 8 * (size3 x / 8))%nat.
Proof.
  destruct x as [n c H W f]. cbn [size0 size1 size2 size3].
  intros -> Hin Hout HH HW.
  unfold UNet.forward, UNet.forward_body, UNet.init.
  cbn [UNet.conv1 UNet.conv2 UNet.conv3 UNet.conv4 UNet.conv5 UNet.conv6
       UNet.conv7 UNet.pool1 UNet.pool2 UNet.pool3 UNet.upconv1 UNet.upconv2
       UNet.upconv3 UNet.outconv].
  pose proof (Nat.Div0.mul_div_le H 2).
  pose proof (Nat.Div0.mul_div_le (H / 2) 2).
  pose proof (Nat.Div0.mul_div_le (H / 2 / 2) 2).
  pose proof (Nat.Div0.mul_div_le W 2).
  pose proof (Nat.Div0.mul_div_le (W / 2) 2).
  pose proof (Nat.Div0.mul_div_le (W / 2 / 2) 2).
  assert (4 <= H / 2 /\ 2 <= H / 2 / 2 /\ 1 <= H / 2 / 2 / 2)%nat as (? & ? & ?)
    by (zify; Z.to_euclidean_division_equations; lia).
  assert (4 <= W / 2 /\ 2 <= W / 2 / 2 /\ 1 <= W / 2 / 2 / 2)%nat as (? & ? & ?)
    by (zify; Z.to_euclidean_division_equations; lia).
  repeat first [forward_step | skip_step].
  rewrite crops_count.
  eexists. split; [reflexivity|].
  unfold shape; cbn [Torch.blank size0 size1 size2 size3].
  rewrite !div2_thrice. cbn [fmap result_fmap].
  split; [|f_equal]; (f_equal; [f_equal|]; lia).
Qed.

(** C3 (as stated, refuted).  A network built without input channels gets
    an input of shape (32, 0, 8, 16), whose height and width are multiples
    of 8: the first convolution raises [RuntimeError], and [forward] returns
    no tensor. *)
Lemma forward_rejects_no_channels :
  let x := Torch.blank 32 0 8 16 in
  size1 x = 0%nat /\ (8 | size2 x)%nat /\ (8 | size3 x)%nat /\
  is_RuntimeError (UNet.forward (UNet.init 0 5) x) /\
  ~ exists result, UNet.forward (UNet.init 0 5) x = Return result.
Proof.
  intros x. split; [reflexivity|].
  split; [by exists 1%nat|]. split; [by exists 2%nat|].
  split; [exact I|]. intros [result H]. discriminate H.
Qed.

(** C3 (amended).  For a network with at least one input and one output
    channel and an input of shape (N, channels_in, H, W) with H and W
    positive multiples of 8, [UNet.forward] returns a tensor of shape
    (N, channels_out, H, W); no skip connection is cropped (the crop
    counter stays 0), so the final replicate padding adds nothing. *)
Theorem forward_shape (channels_in channels_out : nat) (x : Tensor4 unit) :
  size1 x = channels_in ->
  (1 <= channels_in)%nat -> (1 <= channels_out)%nat ->
  (8 | size2 x)%nat -> (0 < size2 x)%nat ->
  (8 | size3 x)%nat -> (0 < size3 x)%nat ->
  exists out result,
    UNet.forward_body (UNet.init channels_in channels_out) x = Return (out, 0%nat) /\
    UNet.forward (UNet.init channels_in channels_out) x = Return result /\
    shape result = shape out /\
    shape result = (size0 x, channels_out, size2 x, size3 x).
Proof.
  intros Hc Hin Hout [h Hh] Hhpos [w Hw] Hwpos.
  destruct (forward_any_size channels_in channels_out x Hc Hin Hout)
    as (out & Hbody & Hshape & Hfwd); [lia|lia|].
  rewrite crops_needed_none in Hbody, Hfwd by (by eexists).
  apply fmap_Return_inv in Hfwd as (result & Hfwd & Hres).
  exists out, result. split; [exact Hbody|]. split; [exact Hfwd|].
  rewrite Hres, Hshape, Hh, Hw, !Nat.div_mul by lia.
  split; do 2 f_equal; lia.
Qed.

Lemma forward_shape_witness :
  exists out result,
    UNet.forward_body (UNet.init 3 5) (Torch.blank 2 3 16 24) = Return (out, 0%nat) /\
    UNet.forward (UNet.init 3 5) (Torch.blank 2 3 16 24) = Return result /\
    shape result = shape out /\
    shape result = (2, 5, 16, 24)%nat.
Proof.
  apply (forward_shape 3 5 (Torch.blank 2 3 16 24)).
  - reflexivity.
  - lia.
  - lia.
  - exists 2%nat. reflexivity.
  - simpl. lia.
  - exists 3%nat. reflexivity.
  - simpl. lia.
Defined.

(** An input of 10 by 10: the encoder maps have extents 10, 5 and 2, the
    decoder maps 2, 4 and 8, so two skip connections are cropped, and the
    output gets two replicated columns at the left. *)
Example forward_run_10 :
  snd <$> UNet.forward_body (UNet.init 1 1) (Torch.blank 1 1 10 10) = Return 2%nat /\
  shape <$> UNet.forward (UNet.init 1 1) (Torch.blank 1 1 10 10)
  = Return (1, 1, 8, 10)%nat.
Proof. split; vm_compute; reflexivity. Qed.

(** An input with a channel count other than [channels_in] is rejected, and
    so is an input of 7 by 7, which the third pooling would leave without
    rows. *)
Example forward_run_rejected :
  UNet.forward (UNet.init 1 1) (Torch.blank 1 2 8 8) = Raise Torch.channel_mismatch /\
  UNet.forward (UNet.init 1 1) (Torch.blank 1 1 7 7) = Raise Torch.output_too_small.
Proof. split; vm_compute; reflexivity. Qed.

(** ** [MyDataset]: the shuffled member indices and their split *)

Lemma swap_Permutation {A} (x : list A) (i j : nat) : Np.swap x i j ≡ₚ x.
Proof.
  unfold Np.swap.
  destruct (x !! i) as [a|] eqn:Hi; [|reflexivity].
  destruct (x !! j) as [b|] eqn:Hj; [|reflexivity].
  by apply Permutation_insert_swap.
Qed.

Lemma shuffle_from_Permutation {A} (i : nat) (x : list A) (g : Np.rng) :
  (Np.shuffle_from i x g).1 ≡ₚ x.
Proof.
  revert x g. induction i as [|i IH]; intros x g; [reflexivity|].
  cbn [Np.shuffle_from].
  destruct (Np.random_interval g (S i)) as [j g'].
  rewrite IH. apply swap_Permutation.
Qed.

Lemma shuffle_Permutation {A} (x : list A) (g : Np.rng) :
  (Np.shuffle x g).1 ≡ₚ x.
Proof. apply shuffle_from_Permutation. Qed.

Lemma slice_upto {A} (l : list A) (s : Z) :
  0 <= s <= Z.of_nat (length l) ->
  PySlice.get l (None, Some s) = take (Z.to_nat s) l.
Proof.
  intros Hs. unfold PySlice.get, PySlice.range. cbn [fst snd].
  rewrite adjust_index_inside by lia.
  replace (Z.to_nat (Z.max 0 (s - 0))) with (Z.to_nat s) by lia.
  reflexivity.
Qed.

Lemma slice_from {A} (l : list A) (s : Z) :
  0 <= s <= Z.of_nat (length l) ->
  PySlice.get l (Some s, None) = drop (Z.to_nat s) l.
Proof.
  intros Hs. unfold PySlice.get, PySlice.range. cbn [fst snd].
  rewrite adjust_index_inside by lia.
  apply take_ge. rewrite length_drop. lia.
Qed.

Lemma isel_ok (d : DataArray) (indices : list nat) (idx : nat) :
  (idx < size0 d)%nat -> Forall (fun m => m < size1 d)%nat indices ->
  MyDataset.isel d indices idx
  = Return (mkArray3 (length indices) (size2 d) (size3 d)
              (fun k y x => at4 d idx (nth k indices 0%nat) y x)).
Proof.
  intros Hi Hm. unfold MyDataset.isel.
  rewrite bool_decide_eq_true_2; done.
Qed.

(** C6. For a data cube with [n] ensemble members and a split [s] with
    [0 <= s <= n], [MyDataset.__init__] partitions the member indices:
    [train_indices] and [test_indices] are disjoint, their concatenation is a
    permutation of [0, ..., n-1], they have [s] and [n - s] elements; and
    every [__getitem__] returns the train members as input and the
    remaining (test) members as target. *)
Theorem MyDataset_partition (data : DataArray) (split : Z) (g : Np.rng) :
  0 <= split <= Z.of_nat (size1 data) ->
  let self := (MyDataset.init data split g).1 in
  let train := MyDataset.train_indices self in
  let test := MyDataset.test_indices self in
  (forall m, m ∈ train -> m ∉ test) /\
  train ++ test ≡ₚ seq 0 (size1 data) /\
  length train = Z.to_nat split /\
  length test = (size1 data - Z.to_nat split)%nat /\
  forall idx, (idx < MyDataset.len self)%nat ->
    exists x y,
      MyDataset.getitem self idx = Return (x, y) /\
      len0 x = length train /\ len0 y = length test /\
      (forall k m r c, train !! k = Some m ->
                       at3 x k r c = at4 data idx m r c) /\
      (forall k m r c, test !! k = Some m ->
                       at3 y k r c = at4 data idx m r c).
Proof.
  intros Hs. unfold MyDataset.init.
  destruct (Np.shuffle (Np.arange (size1 data)) g) as [p g'] eqn:Hp.
  assert (Hperm : p ≡ₚ seq 0 (size1 data)).
  { change p with (p, g').1. rewrite <- Hp. apply shuffle_Permutation. }
  assert (Hlen : length p = size1 data).
  { rewrite Hperm. apply length_seq. }
  cbn [fst MyDataset.train_indices MyDataset.test_indices MyDataset.data
       MyDataset.len].
  rewrite slice_upto, slice_from by lia.
  set (k := Z.to_nat split).
  assert (Hk : (k <= length p)%nat) by lia.
  assert (Hnd : NoDup (take k p ++ drop k p)).
  { rewrite take_drop, Hperm. apply NoDup_seq. }
  apply NoDup_app in Hnd as (_ & Hdisj & _).
  assert (Hall : Forall (fun m => m < size1 data)%nat p).
  { rewrite Hperm. apply Forall_forall. intros m Hm%elem_of_seq. lia. }
  split; [exact Hdisj|].
  split; [by rewrite take_drop|].
  split; [by apply length_take_le|].
  split; [rewrite length_drop; lia|].
  intros idx Hidx. unfold MyDataset.getitem.
  cbn [MyDataset.data MyDataset.train_indices MyDataset.test_indices].
  rewrite !isel_ok by eauto using Forall_take, Forall_drop.
  do 2 eexists. split; [reflexivity|].
  cbn [len0 at3].
  split; [reflexivity|]. split; [reflexivity|].
  split; intros i m r c Hm; by rewrite (nth_lookup_Some _ _ _ _ Hm).
Qed.

Lemma MyDataset_partition_witness :
  let data : DataArray := mkTensor4 2 5 1 1 (fun t m _ _ => Some (inject_Z (Z.of_nat (10 * t + m)))) in
  let self := (MyDataset.init data 3 [7; 1; 4; 0]%nat).1 in
  let train := MyDataset.train_indices self in
  let test := MyDataset.test_indices self in
  (forall m, m ∈ train -> m ∉ test) /\
  train ++ test ≡ₚ seq 0 5 /\
  length train = 3%nat /\
  length test = 2%nat /\
  forall idx, (idx < MyDataset.len self)%nat ->
    exists x y,
      MyDataset.getitem self idx = Return (x, y) /\
      len0 x = length train /\ len0 y = length test /\
      (forall k m r c, train !! k = Some m ->
                       at3 x k r c = at4 data idx m r c) /\
      (forall k m r c, test !! k = Some m ->
                       at3 y k r c = at4 data idx m r c).
Proof.
  intros data.
  apply (MyDataset_partition data 3 [7; 1; 4; 0]%nat).
  simpl. lia.
Defined.

Example shuffle_run :
  Np.shuffle (Np.arange 5) [7; 1; 4; 0]%nat = ([4; 0; 3; 1; 2]%nat, []).
Proof. reflexivity. Qed.

(** ** [get_runs] *)

(** The search result handed to [not runs] is a data frame, whose truth
    value is undefined: the test itself raises, whatever the runs are. *)
Lemma get_runs_always_raises (srv : Mlflow.server) (experiment_name : string) :
  Utils.get_runs srv experiment_name
  = Raise (ValueError "The truth value of a DataFrame is ambiguous.").
Proof. reflexivity. Qed.

(** C4 (violated by the code).  With one run recorded for the experiment,
    the search returns this run, yet [get_runs] raises [ValueError] instead
    of returning the search result. *)
Theorem get_runs_raises_with_runs :
  let srv : Mlflow.server := fun _ => [Mlflow.mkRun "0a1b2c"] in
  Mlflow.runs_of (Mlflow.search_runs srv "WGN" Mlflow.pandas) = [Mlflow.mkRun "0a1b2c"] /\
  is_ValueError (Utils.get_runs srv "WGN") /\
  Utils.get_runs srv "WGN"
  <> Return (Mlflow.search_runs srv "WGN" Mlflow.pandas).
Proof.
  intros srv. split; [reflexivity|]. split; [exact I|].
  rewrite get_runs_always_raises. discriminate.
Qed.

(** ** [downscale_data] of utils.py and [load_config_and_data] *)

(** The call of [Dict[str, bool]] raises before the cube is touched. *)
Lemma utils_downscale_data_raises (data : DataArray) (factor : Z) :
  Utils.downscale_data data factor
  = Raise (TypeError "Type Dict cannot be instantiated; use dict() instead").
Proof. reflexivity. Qed.

(** C5 (violated by the code).  With an integer ["coarsen"] value greater
    than 1, [load_config_and_data] calls [downscale_data] on the test cube,
    and this call raises [TypeError]: no cube is coarsened and nothing is
    returned, whatever the cubes are.  With a value of 1 or less both cubes
    are returned as loaded. *)
Theorem load_config_and_data_raises_on_coarsen
    (load_data : gmap string Utils.json -> result (DataArray * DataArray))
    (config : gmap string Utils.json) (c : Z) (data_train data_test : DataArray) :
  config !! "coarsen" = Some (Utils.JInt c) ->
  load_data config = Return (data_train, data_test) ->
  (1 < c ->
   Utils.load_config_and_data load_data config
   = Raise (TypeError "Type Dict cannot be instantiated; use dict() instead")) /\
  (c <= 1 ->
   Utils.load_config_and_data load_data config
   = Return (config, data_train, data_test)).
Proof.
  intros Hc Hload. unfold Utils.load_config_and_data, Utils.getitem.
  rewrite Hload, Hc. cbn [mbind result_bind Utils.gt_one].
  split; intros Hlt.
  - rewrite (proj2 (Z.ltb_lt 1 c)) by lia. reflexivity.
  - rewrite (proj2 (Z.ltb_ge 1 c)) by lia. reflexivity.
Qed.

Lemma load_config_and_data_raises_on_coarsen_witness :
  let cube : DataArray := mkTensor4 1 1 2 2 (fun _ _ y x => Some (inject_Z (Z.of_nat (y + x)))) in
  let config : gmap string Utils.json :=
    {[ "coarsen" := Utils.JInt 2; "data_train" := Utils.JStr "/data/data_train.zarr" ]} in
  let load_data := fun _ : gmap string Utils.json => Return (cube, cube) in
  Utils.load_config_and_data load_data config
  = Raise (TypeError "Type Dict cannot be instantiated; use dict() instead").
Proof.
  intros cube config load_data.
  apply (load_config_and_data_raises_on_coarsen load_data config 2 cube cube).
  - vm_compute. reflexivity.
  - reflexivity.
  - lia.
Defined.

(** ** [downscale_data] *)

Lemma omap_id_Some {A} (vals : list A) : omap id (Some <$> vals) = vals.
Proof.
  induction vals as [|v vals IH]; [reflexivity|].
  cbn. rewrite IH. reflexivity.
Qed.

Lemma nanmean_numbers (vals : list Q) :
  vals <> [] -> Xr.nanmean (Some <$> vals) = Some (Xr.list_mean vals).
Proof.
  intros Hne. unfold Xr.nanmean. rewrite omap_id_Some.
  destruct vals; done.
Qed.

Lemma length_bind_const {A B} (f : A -> list B) (l : list A) (k : nat) :
  (forall a, length (f a) = k) -> length (l ≫= f) = (length l * k)%nat.
Proof.
  intros Hf. induction l as [|a l IH]; [reflexivity|].
  cbn [mbind list_bind length]. rewrite length_app, Hf.
  change (list_bind _ _ f l) with (l ≫= f). rewrite IH. reflexivity.
Qed.

Lemma block_length (d : DataArray) (wy wx t m y x : nat) :
  length (Xr.block d wy wx t m y x) = (wy * wx)%nat.
Proof.
  unfold Xr.block.
  rewrite (length_bind_const _ _ wx), length_seq; [reflexivity|].
  intros i. rewrite (length_bind_const _ _ 1), length_seq; [lia|done].
Qed.

(** When the window is positive and divides both extents, coarsening goes
    through and yields one cell per block. *)
Lemma coarsen_reduce_ok (d : DataArray) (factor : Z)
      (func : list (option Q) -> option Q) :
  0 < factor -> (factor | Z.of_nat (size2 d)) -> (factor | Z.of_nat (size3 d)) ->
  Xr.coarsen_reduce d factor factor func
  = Return (mkTensor4 (size0 d) (size1 d)
              (size2 d / Z.to_nat factor)%nat (size3 d / Z.to_nat factor)%nat
              (fun t m y x =>
                 func (Xr.block d (Z.to_nat factor) (Z.to_nat factor) t m y x))).
Proof.
  intros Hpos Hy Hx. unfold Xr.coarsen_reduce.
  rewrite bool_decide_eq_false_2 by lia.
  apply Z.mod_divide in Hy; [|lia]. apply Z.mod_divide in Hx; [|lia].
  rewrite bool_decide_eq_false_2 by (intros [?|?]; done).
  reflexivity.
Qed.

(** C7 (as stated, refuted).  On a block with a missing cell the
    [downscale_data] of train_cnn.py returns the mean of the three remaining
    cells, which is not the arithmetic mean of the block of four cells. *)
Lemma downscale_data_skips_nan :
  (2 | Z.of_nat (size2 cube_with_nan)) /\ (2 | Z.of_nat (size3 cube_with_nan)) /\
  exists out v,
    TrainCnn.downscale_data cube_with_nan 2 = Return out /\
    Xr.block cube_with_nan 2 2 0 0 0 0 = [None; Some 1%Q; Some 2%Q; Some 3%Q] /\
    at4 out 0%nat 0%nat 0%nat 0%nat = Some v /\ (v == 2)%Q /\
    at4 out 0%nat 0%nat 0%nat 0%nat
    <> Xr.np_mean (Xr.block cube_with_nan 2 2 0 0 0 0).
Proof.
  split; [by exists 1|]. split; [by exists 1|].
  do 2 eexists. split; [reflexivity|]. split; [reflexivity|].
  split; [reflexivity|]. split; [reflexivity|]. discriminate.
Qed.

(** C7 (amended).  For a positive factor that divides the height and ncells
    extents, the [downscale_data] of train_cnn.py returns a cube with these
    two extents divided by the factor and the other extents unchanged, in
    which every cell whose factor-by-factor block of input cells holds
    numbers only (no NaN) is the arithmetic mean of that block. *)
Theorem downscale_data_block_means (data : DataArray) (factor : Z) :
  0 < factor ->
  (factor | Z.of_nat (size2 data)) -> (factor | Z.of_nat (size3 data)) ->
  exists out,
    TrainCnn.downscale_data data factor = Return out /\
    block_means_of data out (Z.to_nat factor).
Proof.
  intros Hpos Hy Hx.
  unfold TrainCnn.downscale_data, Xr.coarsen_mean.
  rewrite coarsen_reduce_ok by assumption.
  eexists. split; [reflexivity|].
  do 4 (split; [reflexivity|]).
  intros t m y x vals _ _ _ _ Hb.
  pose proof (block_length data (Z.to_nat factor) (Z.to_nat factor) t m y x) as Hl.
  rewrite Hb, length_fmap in Hl. split; [exact Hl|].
  cbn [at4]. rewrite Hb. apply nanmean_numbers.
  intros ->. simpl in Hl. nia.
Qed.

Lemma downscale_data_block_means_witness :
  let data : DataArray :=
    mkTensor4 1 2 4 6 (fun _ m y x => Some (inject_Z (Z.of_nat (m + y * x)))) in
  exists out,
    TrainCnn.downscale_data data 2 = Return out /\
    block_means_of data out 2.
Proof.
  intros data.
  apply (downscale_data_block_means data 2).
  - lia.
  - exists 2. reflexivity.
  - exists 3. reflexivity.
Defined.

(** C9 (violated by the code).  On a cube of two by two numbers and a
    factor of 2 the [downscale_data] of train_cnn.py returns the cube of
    their mean, (0 + 1 + 2 + 3) / 4; the [downscale_data] of utils.py
    raises [TypeError] and returns nothing.  The two do not compute the same
    result where one of them is defined. *)
Theorem downscale_data_utils_differs :
  exists out v,
    TrainCnn.downscale_data cube_of_numbers 2 = Return out /\
    shape out = (1, 1, 1, 1)%nat /\
    at4 out 0%nat 0%nat 0%nat 0%nat = Some v /\ (v == 3 # 2)%Q /\
    is_TypeError (Utils.downscale_data cube_of_numbers 2) /\
    ~ same_result (TrainCnn.downscale_data cube_of_numbers 2)
                  (Utils.downscale_data cube_of_numbers 2).
Proof.
  do 2 eexists. split; [reflexivity|]. split; [reflexivity|].
  split; [reflexivity|]. split; [reflexivity|]. split; [exact I|].
  intros H. exact H.
Qed.

(** ** Sums of lists of rationals *)

Section ListSums.
Local Open Scope Q_scope.

Lemma list_sum_app (l1 l2 : list Q) :
  Xr.list_sum (l1 ++ l2) == Xr.list_sum l1 + Xr.list_sum l2.
Proof.
  induction l1 as [|v l1 IH].
  - change (Xr.list_sum l2 == 0 + Xr.list_sum l2). ring.
  - change (v + Xr.list_sum (l1 ++ l2) == v + Xr.list_sum l1 + Xr.list_sum l2).
    rewrite IH. ring.
Qed.

Lemma list_sum_cons (v : Q) (l : list Q) :
  Xr.list_sum (v :: l) = v + Xr.list_sum l.
Proof. reflexivity. Qed.

Lemma list_sum_nil : Xr.list_sum [] = 0.
Proof. reflexivity. Qed.

Lemma list_sum_ext {A} (f g : A -> Q) (l : list A) :
  (forall a, a ∈ l -> f a == g a) ->
  Xr.list_sum (f <$> l) == Xr.list_sum (g <$> l).
Proof.
  induction l as [|a l IH]; intros H; [reflexivity|].
  rewrite !fmap_cons, !list_sum_cons.
  assert (E1 : f a == g a) by (apply H; left).
  assert (E2 : Xr.list_sum (f <$> l) == Xr.list_sum (g <$> l))
    by (apply IH; intros; apply H; by right).
  rewrite E1, E2. reflexivity.
Qed.

Lemma list_sum_nonneg {A} (f : A -> Q) (l : list A) :
  (forall a, a ∈ l -> 0 <= f a) -> 0 <= Xr.list_sum (f <$> l).
Proof.
  induction l as [|a l IH]; intros H; [apply Qle_refl|].
  rewrite fmap_cons, list_sum_cons.
  assert (0 <= f a) by (apply H; left).
  assert (0 <= Xr.list_sum (f <$> l)) by (apply IH; intros; apply H; by right).
  lra.
Qed.

Lemma list_sum_scale {A} (k : Q) (f : A -> Q) (l : list A) :
  Xr.list_sum ((fun a => k * f a) <$> l) == k * Xr.list_sum (f <$> l).
Proof.
  induction l as [|a l IH]; [cbn; ring|].
  rewrite !fmap_cons, !list_sum_cons, IH. ring.
Qed.

Lemma list_sum_zero {A} (f : A -> Q) (l : list A) :
  (forall a, a ∈ l -> f a == 0) -> Xr.list_sum (f <$> l) == 0.
Proof.
  intros H. rewrite (list_sum_ext f (fun _ => 0) l H).
  clear H. induction l as [|a l IH]; [reflexivity|].
  rewrite fmap_cons, list_sum_cons, IH. ring.
Qed.

Lemma list_sum_const {A} (v : Q) (l : list A) :
  Xr.list_sum ((fun _ => v) <$> l) == inject_Z (Z.of_nat (length l)) * v.
Proof.
  induction l as [|a l IH]; [cbn; ring|].
  rewrite fmap_cons, list_sum_cons, IH.
  cbn [length]. rewrite Nat2Z.inj_succ. unfold Z.succ. rewrite inject_Z_plus. ring.
Qed.

Lemma Qsquare_nonneg (d : Q) : 0 <= d * d.
Proof.
  destruct (Qlt_le_dec d 0) as [Hneg|Hpos].
  - setoid_replace (d * d) with ((- d) * (- d)) using relation Qeq by ring.
    apply Qmult_le_0_compat; lra.
  - by apply Qmult_le_0_compat.
Qed.

Lemma inject_nat_pos (n : nat) : (0 < n)%nat -> 0 < inject_Z (Z.of_nat n).
Proof. intros H. change 0 with (inject_Z 0). rewrite <- Zlt_Qlt. lia. Qed.

Lemma inject_nat_nonneg (n : nat) : 0 <= inject_Z (Z.of_nat n).
Proof. change 0 with (inject_Z 0). rewrite <- Zle_Qle. lia. Qed.

End ListSums.

Lemma bind_singleton_id {A} (l : list A) : l ≫= (fun a => [a]) = l.
Proof.
  induction l as [|a l IH]; [reflexivity|].
  cbn [mbind list_bind app]. f_equal. exact IH.
Qed.

(** ** The positions of a tensor *)

Lemma elem_of_grid (s0 s1 s2 s3 n c y x : nat) :
  (n, c, y, x) ∈ grid s0 s1 s2 s3
  <-> (n < s0 /\ c < s1 /\ y < s2 /\ x < s3)%nat.
Proof.
  unfold grid. rewrite list_elem_of_bind. split.
  - intros (n' & (c' & (y' & (x' & Hp%list_elem_of_singleton & Hx%elem_of_seq)%list_elem_of_bind
                         & Hy%elem_of_seq)%list_elem_of_bind
                   & Hc%elem_of_seq)%list_elem_of_bind & Hn%elem_of_seq).
    simplify_eq. lia.
  - intros (Hn & Hc & Hy & Hx).
    exists n. split; [|apply elem_of_seq; lia].
    apply list_elem_of_bind. exists c. split; [|apply elem_of_seq; lia].
    apply list_elem_of_bind. exists y. split; [|apply elem_of_seq; lia].
    apply list_elem_of_bind. exists x. split; [|apply elem_of_seq; lia].
    by apply list_elem_of_singleton.
Qed.

Lemma length_grid (s0 s1 s2 s3 : nat) :
  length (grid s0 s1 s2 s3) = (s0 * s1 * s2 * s3)%nat.
Proof.
  unfold grid.
  rewrite (length_bind_const _ _ (s1 * s2 * s3)), length_seq; [lia|].
  intros n. rewrite (length_bind_const _ _ (s2 * s3)), length_seq; [lia|].
  intros c. rewrite (length_bind_const _ _ s3), length_seq; [lia|].
  intros y. rewrite (length_bind_const _ _ 1), length_seq; [lia|done].
Qed.

Lemma length_positions {A} (t : Tensor4 A) : length (positions t) = T.numel t.
Proof. apply length_grid. Qed.

Lemma elem_of_positions {A} (t : Tensor4 A) (n c y x : nat) :
  (n, c, y, x) ∈ positions t
  <-> (n < size0 t /\ c < size1 t /\ y < size2 t /\ x < size3 t)%nat.
Proof. unfold positions. apply elem_of_grid. Qed.

(** ** Floating-point numbers *)

Lemma finite_Fin (a : Float.t) : Float.is_finite a -> a = Float.Fin (Float.to_Q a).
Proof. by destruct a. Qed.

Lemma div_Fin (s q : Q) :
  ~ (q == 0)%Q -> Float.div (Float.Fin s) (Float.Fin q) = Float.Fin (s / q).
Proof.
  intros Hq. cbn. destruct (Qeq_bool q 0) eqn:E; [|reflexivity].
  apply Qeq_bool_eq in E. done.
Qed.

Lemma div_of_nat (s : Q) (n : nat) :
  (0 < n)%nat ->
  Float.div (Float.Fin s) (Float.of_nat n)
  = Float.Fin (s / inject_Z (Z.of_nat n)).
Proof.
  intros Hn. apply div_Fin. pose proof (inject_nat_pos n Hn). lra.
Qed.

(** ** Sums over tensors of finite numbers *)

Section TensorSums.
Local Open Scope Q_scope.

(** A sum of finite numbers is finite, and it is the sum of the list of
    their values. *)
Lemma sum_upto_fin {B} (n : nat) (f : nat -> Float.t) (g : B -> Q)
      (h : nat -> list B) :
  (forall i, (i < n)%nat ->
     exists v, f i = Float.Fin v /\ v == Xr.list_sum (g <$> h i)) ->
  exists v, T.sum_upto n f = Float.Fin v
            /\ v == Xr.list_sum (g <$> (seq 0 n ≫= h)).
Proof.
  induction n as [|n IH]; intros H.
  - exists 0. split; reflexivity.
  - destruct IH as (v & Ev & Hv); [intros; apply H; lia|].
    destruct (H n) as (w & Ew & Hw); [lia|].
    exists (v + w). cbn [T.sum_upto]. rewrite Ev, Ew. split; [reflexivity|].
    rewrite seq_S, bind_app, fmap_app, list_sum_app. cbn [mbind list_bind].
    rewrite app_nil_r, Hv, Hw. reflexivity.
Qed.

Lemma sum_upto_members (n : nat) (f : nat -> Float.t) (g : nat -> Q) :
  (forall i, (i < n)%nat -> f i = Float.Fin (g i)) ->
  exists v, T.sum_upto n f = Float.Fin v
            /\ v == Xr.list_sum (g <$> seq 0 n).
Proof.
  intros H.
  destruct (sum_upto_fin n f g (fun i => [i])) as (v & Ev & Hv).
  - intros i Hi. exists (g i). split; [by apply H|]. cbn. ring.
  - exists v. split; [exact Ev|]. by rewrite Hv, bind_singleton_id.
Qed.

Lemma sum4_fin (s0 s1 s2 s3 : nat) (f : nat -> nat -> nat -> nat -> Float.t)
      (g : nat * nat * nat * nat -> Q) :
  (forall n c y x,
      (n < s0)%nat -> (c < s1)%nat -> (y < s2)%nat -> (x < s3)%nat ->
      exists v, f n c y x = Float.Fin v /\ v == g (n, c, y, x)) ->
  exists v,
    T.sum_upto s0 (fun n =>
    T.sum_upto s1 (fun c =>
    T.sum_upto s2 (fun y =>
    T.sum_upto s3 (fun x => f n c y x)))) = Float.Fin v
    /\ v == Xr.list_sum (g <$> grid s0 s1 s2 s3).
Proof.
  intros H. unfold grid.
  apply sum_upto_fin. intros n Hn.
  apply sum_upto_fin. intros c Hc.
  apply sum_upto_fin. intros y Hy.
  apply sum_upto_fin. intros x Hx.
  destruct (H n c y x) as (v & Ev & Hv); try done.
  exists v. split; [exact Ev|]. rewrite Hv. cbn. ring.
Qed.

(** [torch.sum] and [torch.mean] of a tensor of finite numbers. *)
Lemma sum_values (a : Tensor4 Float.t) (g : nat * nat * nat * nat -> Q) :
  holds a g ->
  exists v, T.sum a = Float.Fin v /\ v == Xr.list_sum (g <$> positions a).
Proof. intros H. by apply sum4_fin. Qed.

Lemma mean_values (a : Tensor4 Float.t) (g : nat * nat * nat * nat -> Q) :
  holds a g ->
  (0 < T.numel a)%nat ->
  exists v, T.mean a = Float.Fin v /\ v == Xr.list_mean (g <$> positions a).
Proof.
  intros H Hn. destruct (sum_values a g H) as (s & Es & Hs).
  unfold T.mean. rewrite Es, div_of_nat by exact Hn.
  eexists. split; [reflexivity|].
  unfold Xr.list_mean. rewrite length_fmap, length_positions, Hs. reflexivity.
Qed.

Lemma finite_value (a : Tensor4 Float.t) : T.finite a -> holds a (value a).
Proof.
  intros H n c y x ? ? ? ?. eexists. split; [|reflexivity].
  apply finite_Fin. by apply H.
Qed.

Lemma pos_inside (size i : nat) : (i < size)%nat -> T.pos size i = i.
Proof. intros H. unfold T.pos. case_bool_decide; lia. Qed.

Lemma broadcast_same (s : nat) : T.broadcast s s = Some s.
Proof. unfold T.broadcast. by rewrite bool_decide_eq_true_2. Qed.

(** On tensors of the same shape the operator is applied entry by
    entry. *)
Lemma map2_same_shape (op : Float.t -> Float.t -> Float.t)
      (a b : Tensor4 Float.t) :
  shape b = shape a ->
  exists r,
    T.map2 op a b = Return r /\
    size0 r = size0 a /\ size1 r = size1 a /\
    size2 r = size2 a /\ size3 r = size3 a /\
    forall n c y x,
      (n < size0 a)%nat -> (c < size1 a)%nat ->
      (y < size2 a)%nat -> (x < size3 a)%nat ->
      at4 r n c y x = op (at4 a n c y x) (at4 b n c y x).
Proof.
  intros Hs. apply shape_components in Hs as (E0 & E1 & E2 & E3).
  unfold T.map2. rewrite E0, E1, E2, E3, !broadcast_same.
  eexists. split; [reflexivity|]. cbn [size0 size1 size2 size3 at4].
  do 4 (split; [reflexivity|]).
  intros n c y x Hn Hc Hy Hx. by rewrite !pos_inside.
Qed.

End TensorSums.

(** ** Numbers of the same value *)

Section SameValue.
Local Open Scope Q_scope.

Lemma same_refl (a : Float.t) : Float.same a a.
Proof. destruct a; cbn; [reflexivity|done..]. Qed.

Lemma same_to_Q (a b : Float.t) : Float.same a b -> Float.to_Q a == Float.to_Q b.
Proof. destruct a, b; cbn; done. Qed.

Lemma signed_same (x y : Q) : x == y -> Float.signed x = Float.signed y.
Proof. intros E. unfold Float.signed. by rewrite E. Qed.

Lemma Qeq_bool_same (x y : Q) : x == y -> Qeq_bool x 0 = Qeq_bool y 0.
Proof.
  intros E. destruct (Qeq_bool y 0) eqn:B.
  - apply Qeq_bool_iff. apply Qeq_bool_iff in B. by rewrite E.
  - destruct (Qeq_bool x 0) eqn:B'; [|reflexivity].
    apply Qeq_bool_iff in B'. rewrite E in B'.
    apply Qeq_bool_iff in B'. congruence.
Qed.

Lemma add_same (a a' b b' : Float.t) :
  Float.same a a' -> Float.same b b' ->
  Float.same (Float.add a b) (Float.add a' b').
Proof.
  destruct a, a', b, b'; cbn; try done.
  intros E1 E2. by rewrite E1, E2.
Qed.

Lemma div_same (a a' b b' : Float.t) :
  Float.same a a' -> Float.same b b' ->
  Float.same (Float.div a b) (Float.div a' b').
Proof.
  destruct a as [x| | |], a' as [x'| | |], b as [y| | |], b' as [y'| | |];
    cbn; try done.
  - intros E1 E2. rewrite (Qeq_bool_same y y' E2).
    destruct (Qeq_bool y' 0).
    + rewrite (signed_same x x' E1). apply same_refl.
    + cbn. by rewrite E1, E2.
  - intros _ E2. destruct (Qlt_le_dec y 0), (Qlt_le_dec y' 0); try done; lra.
  - intros _ E2. destruct (Qlt_le_dec y 0), (Qlt_le_dec y' 0); try done; lra.
Qed.

(** A factor of one changes no number, not even an infinity or NaN. *)
Lemma mul_one_same (a m : Float.t) :
  Float.same m Float.one -> Float.same (Float.mul a m) a.
Proof.
  destruct a as [x| | |], m as [q| | |]; cbn; try done; intros E.
  - rewrite E. ring.
  - by rewrite (signed_same q 1 E).
  - assert (E' : - q == - (1)) by (by rewrite E).
    by rewrite (signed_same (- q) (- (1)) E').
Qed.

(** Multiplying by the opposite of a number gives the opposite of the
    product. *)
Lemma mul_opp_same (a : Q) (m : Float.t) :
  Float.same (Float.mul (Float.opp (Float.Fin a)) m)
             (Float.opp (Float.mul (Float.Fin a) m)).
Proof.
  destruct m as [y| | |]; cbn; try done.
  - ring.
  - unfold Float.signed.
    destruct (Qcompare_spec a 0), (Qcompare_spec (- a) 0); try done; lra.
  - unfold Float.signed.
    destruct (Qcompare_spec (- a) 0), (Qcompare_spec (- - a) 0); try done; lra.
Qed.

Lemma sum_upto_same (n : nat) (f g : nat -> Float.t) :
  (forall i, (i < n)%nat -> Float.same (f i) (g i)) ->
  Float.same (T.sum_upto n f) (T.sum_upto n g).
Proof.
  induction n as [|n IH]; intros H; [apply same_refl|].
  cbn [T.sum_upto]. apply add_same; [apply IH; intros; apply H; lia|apply H; lia].
Qed.

(** Tensors of the same shape with the same entries have the same sum. *)
Lemma sum_same (a b : Tensor4 Float.t) :
  shape a = shape b ->
  (forall n c y x,
      (n < size0 a)%nat -> (c < size1 a)%nat ->
      (y < size2 a)%nat -> (x < size3 a)%nat ->
      Float.same (at4 a n c y x) (at4 b n c y x)) ->
  Float.same (T.sum a) (T.sum b).
Proof.
  intros Hs H. unfold T.sum.
  apply shape_components in Hs as (<- & <- & <- & <-).
  apply sum_upto_same; intros n Hn. apply sum_upto_same; intros c Hc.
  apply sum_upto_same; intros y Hy. apply sum_upto_same; intros x Hx.
  by apply H.
Qed.

(** All values of a list are [w]: their variance is zero. *)
Lemma variance_constant (f : nat -> Q) (n : nat) (w : Q) :
  (2 <= n)%nat -> (forall i, (i < n)%nat -> f i == w) ->
  variance (f <$> seq 0 n) == 0.
Proof.
  intros Hn H.
  assert (Hin : forall i, i ∈ seq 0 n -> f i == w).
  { intros i Hi%elem_of_seq. apply H. lia. }
  assert (Hmean : Xr.list_mean (f <$> seq 0 n) == w).
  { unfold Xr.list_mean.
    rewrite (list_sum_ext f (fun _ => w) _ Hin), list_sum_const.
    rewrite length_fmap, length_seq. field.
    assert (0 < inject_Z (Z.of_nat n)) by (apply inject_nat_pos; lia). lra. }
  unfold variance. rewrite <- list_fmap_compose.
  rewrite list_sum_zero; [unfold Qdiv; ring|].
  intros i Hi. unfold compose. rewrite Hmean, (Hin i Hi). ring.
Qed.

End SameValue.
(** ** [EnsembleVarianceRegularizationLoss.forward] *)

Section EnsembleVariance.
Local Open Scope Q_scope.

Lemma inject_Z_pred (n : nat) :
  inject_Z (Z.of_nat n - 1) == inject_Z (Z.of_nat n) - 1.
Proof.
  unfold Z.sub, Qminus. rewrite inject_Z_plus, inject_Z_opp. reflexivity.
Qed.

(** [torch.var] at one sample and grid cell, for two or more finite
    members: the unbiased variance of their values. *)
Lemma var_dim1_value (a : Tensor4 Float.t) (n c y x : nat) :
  T.finite a -> (2 <= size1 a)%nat ->
  (n < size0 a)%nat -> (y < size2 a)%nat -> (x < size3 a)%nat ->
  exists v, at4 (T.var_dim1 a) n c y x = Float.Fin v
            /\ v == variance (members a n y x).
Proof.
  intros Hfin Hc Hn Hy Hx. unfold T.var_dim1. cbn [at4].
  destruct (sum_upto_members (size1 a) (fun c0 => at4 a n c0 y x)
              (fun c0 => Float.to_Q (at4 a n c0 y x))) as (sm & -> & Hm).
  { intros i Hi. apply finite_Fin. by apply Hfin. }
  rewrite div_of_nat by lia.
  set (m := sm / inject_Z (Z.of_nat (size1 a))).
  destruct (sum_upto_members (size1 a)
              (fun c0 => Float.mul (Float.sub (at4 a n c0 y x) (Float.Fin m))
                                   (Float.sub (at4 a n c0 y x) (Float.Fin m)))
              (fun c0 => (Float.to_Q (at4 a n c0 y x) - m)
                         * (Float.to_Q (at4 a n c0 y x) - m)))
    as (sq & -> & Hsq).
  { intros i Hi. rewrite (finite_Fin (at4 a n i y x)) by (by apply Hfin).
    reflexivity. }
  unfold Float.of_Z. rewrite Z.max_r by lia.
  assert (Hden : 0 < inject_Z (Z.of_nat (size1 a) - 1)).
  { change 0 with (inject_Z 0). rewrite <- Zlt_Qlt. lia. }
  rewrite div_Fin by lra.
  eexists. split; [reflexivity|].
  unfold variance, members.
  rewrite length_fmap, length_seq, <- list_fmap_compose, <- inject_Z_pred.
  assert (Hmean : m == Xr.list_mean
                         ((fun c0 => Float.to_Q (at4 a n c0 y x)) <$> seq 0 (size1 a))).
  { unfold m, Xr.list_mean. rewrite length_fmap, length_seq, Hm. reflexivity. }
  rewrite Hsq.
  apply Qmult_comp; [|reflexivity].
  apply list_sum_ext. intros i _. unfold compose. rewrite Hmean. reflexivity.
Qed.

Lemma variance_nonneg (l : list Q) : (2 <= length l)%nat -> 0 <= variance l.
Proof.
  intros Hl. unfold variance, Qdiv.
  apply Qmult_le_0_compat.
  - apply list_sum_nonneg. intros v _. apply Qsquare_nonneg.
  - apply Qinv_le_0_compat. rewrite <- inject_Z_pred.
    change 0 with (inject_Z 0). rewrite <- Zle_Qle. lia.
Qed.

Lemma list_mean_nonneg {A} (f : A -> Q) (l : list A) :
  (forall a, a ∈ l -> 0 <= f a) -> 0 <= Xr.list_mean (f <$> l).
Proof.
  intros H. unfold Xr.list_mean, Qdiv.
  apply Qmult_le_0_compat; [by apply list_sum_nonneg|].
  apply Qinv_le_0_compat, inject_nat_nonneg.
Qed.

(** The value of the loss on finite numbers, for a batch that is not empty
    and has two or more ensemble members. *)
Lemma forward_value (alpha : Q) (outputs target : Tensor4 Float.t) :
  shape target = shape outputs ->
  T.finite outputs -> T.finite target ->
  (1 <= size0 outputs)%nat -> (2 <= size1 outputs)%nat ->
  (1 <= size2 outputs)%nat -> (1 <= size3 outputs)%nat ->
  exists v,
    EnsembleVarianceRegularizationLoss.forward (Float.Fin alpha) outputs target
    = Return (Float.Fin v) /\
    v == Xr.list_mean (abs_errors outputs target)
         - alpha * Xr.list_mean (ensemble_variances outputs).
Proof.
  intros Hs Ho Ht H0 H1 H2 H3.
  destruct (map2_same_shape Float.sub outputs target Hs)
    as (d & Ed & E0 & E1 & E2 & E3 & Hd).
  unfold EnsembleVarianceRegularizationLoss.forward, T.sub.
  rewrite Ed. cbn [mbind result_bind mret result_ret]. cbv zeta.
  apply shape_components in Hs as (S0 & S1 & S2 & S3).
  destruct (mean_values (T.abs d)
              (fun p => Qabs (value outputs p - value target p)))
    as (l1 & -> & Hl1).
  { intros n c y x. cbn [T.abs size0 size1 size2 size3 at4].
    rewrite E0, E1, E2, E3. intros Hn Hc Hy Hx.
    rewrite Hd by done.
    rewrite (finite_Fin (at4 outputs n c y x)) by (by apply Ho).
    rewrite (finite_Fin (at4 target n c y x)) by (apply Ht; lia).
    eexists. split; [reflexivity|]. reflexivity. }
  { unfold T.numel. cbn [T.abs size0 size1 size2 size3].
    rewrite E0, E1, E2, E3. repeat apply Nat.mul_pos_pos; lia. }
  destruct (mean_values (T.var_dim1 outputs)
              (fun '(n, _, y, x) => variance (members outputs n y x)))
    as (mv & -> & Hmv).
  { intros n c y x. cbn [T.var_dim1 size0 size1 size2 size3].
    intros Hn Hc Hy Hx. by apply var_dim1_value. }
  { unfold T.numel. cbn [T.var_dim1 size0 size1 size2 size3].
    repeat apply Nat.mul_pos_pos; lia. }
  eexists. split; [reflexivity|].
  rewrite Hl1, Hmv. unfold abs_errors, ensemble_variances, positions.
  cbn [T.abs T.var_dim1 size0 size1 size2 size3].
  rewrite E0, E1, E2, E3. ring.
Qed.

End EnsembleVariance.

(** C8. For outputs with the ensemble members along axis 1 and a target
    of the same shape, the loss with strength [alpha] is the mean absolute
    error minus [alpha] times the mean of the ensemble variance, as
    [torch.mean] and [torch.var] give them.  On finite numbers (two or more
    members, a batch that is not empty) these are the arithmetic mean of the
    absolute errors of all cells and the arithmetic mean, over the samples
    and grid cells, of the unbiased variance of the ensemble members. *)
Theorem ensemble_variance_loss (alpha : Q) (outputs target : Tensor4 Float.t) :
  shape target = shape outputs ->
  (exists diff v,
     T.sub outputs target = Return diff /\
     EnsembleVarianceRegularizationLoss.forward (Float.Fin alpha) outputs target
     = Return v /\
     Float.same v
       (Float.sub (T.mean (T.abs diff))
          (Float.mul (Float.Fin alpha) (T.mean (T.var_dim1 outputs))))) /\
  (T.finite outputs -> T.finite target ->
   (1 <= size0 outputs)%nat -> (2 <= size1 outputs)%nat ->
   (1 <= size2 outputs)%nat -> (1 <= size3 outputs)%nat ->
   exists v,
     EnsembleVarianceRegularizationLoss.forward (Float.Fin alpha) outputs target
     = Return (Float.Fin v) /\
     (v == Xr.list_mean (abs_errors outputs target)
           - alpha * Xr.list_mean (ensemble_variances outputs))%Q).
Proof.
  intros Hs. split; [|by apply forward_value].
  destruct (map2_same_shape Float.sub outputs target Hs) as (d & Ed & _).
  unfold EnsembleVarianceRegularizationLoss.forward, T.sub.
  rewrite Ed. cbn [mbind result_bind mret result_ret]. cbv zeta.
  do 2 eexists. split; [reflexivity|]. split; [reflexivity|].
  unfold Float.sub at 1. apply add_same; [apply same_refl|apply mul_opp_same].
Qed.

Lemma ensemble_variance_loss_witness :
  let outputs :=
    mkTensor4 1 2 1 1 (fun _ c _ _ => Float.Fin (if c is O then 1 else 3)) in
  let target := mkTensor4 1 2 1 1 (fun _ _ _ _ => Float.Fin 0) in
  (exists diff v,
     T.sub outputs target = Return diff /\
     EnsembleVarianceRegularizationLoss.forward (Float.Fin (1 # 10)) outputs target
     = Return v /\
     Float.same v
       (Float.sub (T.mean (T.abs diff))
          (Float.mul (Float.Fin (1 # 10)) (T.mean (T.var_dim1 outputs))))) /\
  (exists v,
     EnsembleVarianceRegularizationLoss.forward (Float.Fin (1 # 10)) outputs target
     = Return (Float.Fin v) /\
     (v == Xr.list_mean (abs_errors outputs target)
           - (1 # 10) * Xr.list_mean (ensemble_variances outputs))%Q).
Proof.
  intros outputs target.
  destruct (ensemble_variance_loss (1 # 10) outputs target) as [Hany Hfin];
    [reflexivity|].
  split; [exact Hany|].
  apply Hfin.
  - intros n c y x _ _ _ _. exact I.
  - intros n c y x _ _ _ _. exact I.
  - simpl. lia.
  - simpl. lia.
  - simpl. lia.
  - simpl. lia.
Defined.

(** Two ensemble members 1 and 3 against a target 0: the mean absolute error
    is 2, the ensemble variance is 2, and the loss is 2 - 0.1 * 2.  With the
    single member 1 the variance is 0 / 0, and the loss is NaN. *)
Example ensemble_variance_loss_run :
  (exists v,
     EnsembleVarianceRegularizationLoss.forward (Float.Fin (1 # 10))
       (mkTensor4 1 2 1 1 (fun _ c _ _ => Float.Fin (if c is O then 1 else 3)))
       (mkTensor4 1 2 1 1 (fun _ _ _ _ => Float.Fin 0))
     = Return (Float.Fin v) /\ (v == 9 # 5)%Q) /\
  EnsembleVarianceRegularizationLoss.forward (Float.Fin (1 # 10))
    (mkTensor4 1 1 1 1 (fun _ _ _ _ => Float.Fin 1))
    (mkTensor4 1 1 1 1 (fun _ _ _ _ => Float.Fin 0))
  = Return Float.NaN.
Proof.
  split; [|vm_compute; reflexivity].
  eexists. split; [vm_compute; reflexivity|reflexivity].
Qed.
(** ** [MaskedLoss.forward] *)

(** C10 (as stated, refuted).  A mask with entries 1 and -1 has a nonzero
    entry, and its sum, the divisor of [MaskedLoss.forward], is zero: with
    the absolute errors 5 and 4 the result is 1 / 0, which is infinity and
    no mean of losses. *)
Lemma masked_loss_zero_divisor :
  let outputs :=
    mkTensor4 1 1 1 2 (fun _ _ _ x => Float.Fin (if x is O then 5 else 4)) in
  let target := mkTensor4 1 1 1 2 (fun _ _ _ _ => Float.Fin 0) in
  let mask :=
    mkTensor4 1 1 1 2 (fun _ _ _ x => Float.Fin (if x is O then 1 else -1)) in
  shape target = shape outputs /\ shape mask = shape outputs /\
  MaskedLoss.has_nonzero mask /\
  Float.same (T.sum mask) Float.zero /\
  MaskedLoss.forward l1_elementwise outputs target mask = Return Float.PInf.
Proof.
  intros outputs target mask.
  split; [reflexivity|]. split; [reflexivity|]. split.
  - exists 0%nat, 0%nat, 0%nat, 0%nat. cbn. repeat (split; [lia|]). discriminate.
  - split; [reflexivity|]. vm_compute. reflexivity.
Qed.

Section MaskedLossFacts.
Local Open Scope Q_scope.

Lemma Qeq_bool_one_of_zero (m : Q) : m == 0 -> Qeq_bool m 1 = false.
Proof.
  intros E. destruct (Qeq_bool m 1) eqn:B; [|reflexivity].
  apply Qeq_bool_iff in B. rewrite E in B. discriminate B.
Qed.

Lemma Qeq_bool_one_of_one (m : Q) : m == 1 -> Qeq_bool m 1 = true.
Proof. apply Qeq_bool_iff. Qed.

(** Over zeros and ones, the sum of the products is the sum over the
    positions that hold a one. *)
Lemma masked_sum {A} (f m : A -> Q) (l : list A) :
  (forall a, a ∈ l -> m a == 0 \/ m a == 1) ->
  Xr.list_sum ((fun a => f a * m a) <$> l)
  == Xr.list_sum (f <$> filter (fun a => Qeq_bool (m a) 1 = true) l).
Proof.
  induction l as [|a l IH]; intros H; [reflexivity|].
  assert (IH' : Xr.list_sum ((fun a => f a * m a) <$> l)
                == Xr.list_sum (f <$> filter (fun a => Qeq_bool (m a) 1 = true) l))
    by (apply IH; intros; apply H; by right).
  rewrite filter_cons, fmap_cons, list_sum_cons, IH'.
  destruct (H a) as [E|E]; [left| |].
  - rewrite decide_False by (by rewrite (Qeq_bool_one_of_zero _ E)).
    rewrite E. ring.
  - rewrite decide_True by (by apply Qeq_bool_one_of_one).
    rewrite fmap_cons, list_sum_cons, E. ring.
Qed.

Lemma masked_count {A} (m : A -> Q) (l : list A) :
  (forall a, a ∈ l -> m a == 0 \/ m a == 1) ->
  Xr.list_sum (m <$> l)
  == inject_Z (Z.of_nat (length (filter (fun a => Qeq_bool (m a) 1 = true) l))).
Proof.
  intros H.
  rewrite (list_sum_ext m (fun a => 1 * m a)) by (intros; ring).
  rewrite (masked_sum (fun _ => 1) m l H), list_sum_const. ring.
Qed.

(** An entry of a mask of zeros and ones is a finite number. *)
Lemma zero_one_entry (mask : Tensor4 Float.t) (n c y x : nat) :
  MaskedLoss.zero_one mask ->
  (n < size0 mask)%nat -> (c < size1 mask)%nat ->
  (y < size2 mask)%nat -> (x < size3 mask)%nat ->
  exists q, at4 mask n c y x = Float.Fin q /\ (q == 0 \/ q == 1).
Proof.
  intros H Hn Hc Hy Hx.
  destruct (H n c y x Hn Hc Hy Hx) as [E|E];
    destruct (at4 mask n c y x) as [q| | |]; try done; eauto.
Qed.

Lemma zero_one_finite (mask : Tensor4 Float.t) :
  MaskedLoss.zero_one mask -> T.finite mask.
Proof.
  intros H n c y x Hn Hc Hy Hx.
  destruct (zero_one_entry mask n c y x H Hn Hc Hy Hx) as (q & -> & _). exact I.
Qed.

(** The masked loss on finite numbers: the two sums and their quotient. *)
Lemma masked_loss_value
      (loss_fn : Tensor4 Float.t -> Tensor4 Float.t -> result (Tensor4 Float.t))
      (outputs target mask loss : Tensor4 Float.t) :
  loss_fn outputs target = Return loss ->
  shape loss = shape mask ->
  T.finite loss -> T.finite mask ->
  exists s k,
    T.sum mask = Float.Fin k /\
    k == Xr.list_sum (value mask <$> positions mask) /\
    s == Xr.list_sum ((fun p => value loss p * value mask p) <$> positions mask) /\
    MaskedLoss.forward loss_fn outputs target mask
    = Return (Float.div (Float.Fin s) (Float.Fin k)).
Proof.
  intros Hloss Hs Hl Hm.
  destruct (map2_same_shape Float.mul loss mask (eq_sym Hs))
    as (ml & Eml & E0 & E1 & E2 & E3 & Hml).
  apply shape_components in Hs as (S0 & S1 & S2 & S3).
  destruct (sum_values ml (fun p => value loss p * value mask p))
    as (s & Es & Hsum).
  { intros n c y x. rewrite E0, E1, E2, E3. intros Hn Hc Hy Hx.
    rewrite Hml by done.
    rewrite (finite_Fin (at4 loss n c y x)) by (by apply Hl).
    rewrite (finite_Fin (at4 mask n c y x)) by (apply Hm; lia).
    eexists. split; [reflexivity|]. reflexivity. }
  destruct (sum_values mask (value mask) (finite_value mask Hm))
    as (k & Ek & Hk).
  exists s, k. split; [exact Ek|]. split; [exact Hk|]. split.
  - rewrite Hsum. unfold positions. by rewrite E0, E1, E2, E3, S0, S1, S2, S3.
  - unfold MaskedLoss.forward, T.mul. rewrite Hloss. cbn [mbind result_bind].
    rewrite Eml. cbn [mbind result_bind mret result_ret]. by rewrite Es, Ek.
Qed.

End MaskedLossFacts.

(** C10 (amended).  When the loss function returns finite losses of the
    shape of the mask, and the mask holds zeros and ones only and at least
    one entry that is not zero, the divisor [torch.sum(mask)] is the number
    of unmasked cells, which is positive, and [MaskedLoss.forward] returns
    [sum(loss * mask) / sum(mask)], which is the arithmetic mean of the
    losses of the unmasked cells. *)
Theorem masked_loss_mean
        (loss_fn : Tensor4 Float.t -> Tensor4 Float.t -> result (Tensor4 Float.t))
        (outputs target mask loss : Tensor4 Float.t) :
  loss_fn outputs target = Return loss ->
  shape loss = shape mask ->
  T.finite loss ->
  MaskedLoss.zero_one mask ->
  MaskedLoss.has_nonzero mask ->
  exists v k,
    T.sum mask = Float.Fin k /\ (0 < k)%Q /\
    (k == inject_Z (Z.of_nat (length (unmasked_positions mask))))%Q /\
    MaskedLoss.forward loss_fn outputs target mask = Return (Float.Fin v) /\
    (v == Xr.list_sum ((fun p => value loss p * value mask p) <$> positions mask)
          / k)%Q /\
    (v == Xr.list_mean (unmasked_losses loss mask))%Q.
Proof.
  intros Hloss Hs Hl H01 (n & c & y & x & Hn & Hc & Hy & Hx & Hnz).
  destruct (masked_loss_value loss_fn outputs target mask loss Hloss Hs Hl
              (zero_one_finite mask H01)) as (s & k & Ek & Hk & Hsum & Hfwd).
  assert (Hbits : forall p, p ∈ positions mask ->
                            (value mask p == 0 \/ value mask p == 1)%Q).
  { intros [[[n' c'] y'] x'] (? & ? & ? & ?)%elem_of_positions.
    destruct (zero_one_entry mask n' c' y' x' H01) as (q & E & Hq); try done.
    cbn [value]. by rewrite E. }
  assert (Hcount : (k == inject_Z (Z.of_nat (length (unmasked_positions mask))))%Q).
  { rewrite Hk. by apply masked_count. }
  assert (Hin : (n, c, y, x) ∈ unmasked_positions mask).
  { apply list_elem_of_filter. split; [|by apply elem_of_positions].
    destruct (zero_one_entry mask n c y x H01) as (q & E & [Hq|Hq]); try done.
    - exfalso. apply Hnz. by rewrite E.
    - cbn [value]. rewrite E. by apply Qeq_bool_one_of_one. }
  assert (Hpos : (0 < k)%Q).
  { rewrite Hcount. apply inject_nat_pos.
    destruct (unmasked_positions mask); [by apply elem_of_nil in Hin|cbn; lia]. }
  exists (s / k)%Q, k.
  split; [exact Ek|]. split; [exact Hpos|]. split; [exact Hcount|].
  split; [rewrite Hfwd, div_Fin by lra; reflexivity|].
  split; [by rewrite Hsum|].
  unfold Xr.list_mean, unmasked_losses. rewrite length_fmap, <- Hcount, Hsum.
  apply Qmult_comp; [|reflexivity]. by apply masked_sum.
Qed.

Lemma masked_loss_mean_witness :
  let outputs := mkTensor4 1 1 1 3 (fun _ _ _ x => Float.of_nat x) in
  let target := mkTensor4 1 1 1 3 (fun _ _ _ _ => Float.Fin 5) in
  let mask :=
    mkTensor4 1 1 1 3 (fun _ _ _ x => Float.Fin (if x is O then 0 else 1)) in
  let loss :=
    mkTensor4 1 1 1 3
      (fun _ _ _ x => Float.Fin (Qabs (inject_Z (Z.of_nat x) - 5))) in
  exists v k,
    T.sum mask = Float.Fin k /\ (0 < k)%Q /\
    (k == inject_Z (Z.of_nat (length (unmasked_positions mask))))%Q /\
    MaskedLoss.forward l1_elementwise outputs target mask
    = Return (Float.Fin v) /\
    (v == Xr.list_sum ((fun p => value loss p * value mask p) <$> positions mask)
          / k)%Q /\
    (v == Xr.list_mean (unmasked_losses loss mask))%Q.
Proof.
  intros outputs target mask loss.
  apply (masked_loss_mean l1_elementwise outputs target mask loss).
  - reflexivity.
  - reflexivity.
  - intros n c y x _ _ _ _. exact I.
  - intros n c y x _ _ _ _. destruct x; [left|right]; reflexivity.
  - exists 0%nat, 0%nat, 0%nat, 1%nat. simpl. repeat (split; [lia|]). discriminate.
Defined.

(** A loss of NaN at a masked cell is not masked: its product with the
    mask entry 0 is NaN, and so is the masked loss, although the two
    unmasked cells hold the losses 4 and 3. *)
Example masked_loss_nan_at_masked_cell :
  let outputs :=
    mkTensor4 1 1 1 3
      (fun _ _ _ x => if x is O then Float.NaN else Float.of_nat x) in
  let target := mkTensor4 1 1 1 3 (fun _ _ _ _ => Float.Fin 5) in
  let mask :=
    mkTensor4 1 1 1 3 (fun _ _ _ x => Float.Fin (if x is O then 0 else 1)) in
  MaskedLoss.zero_one mask /\ MaskedLoss.has_nonzero mask /\
  unmasked_positions mask = [(0, 0, 0, 1); (0, 0, 0, 2)]%nat /\
  MaskedLoss.forward l1_elementwise outputs target mask = Return Float.NaN.
Proof.
  intros outputs target mask. split.
  - intros n c y x _ _ _ _. destruct x; [left|right]; reflexivity.
  - split; [|split; vm_compute; reflexivity].
    exists 0%nat, 0%nat, 0%nat, 1%nat. simpl. repeat (split; [lia|]). discriminate.
Qed.

(** With the first of three cells masked, the loss is the mean of the other
    two absolute errors, (4 + 3) / 2. *)
Example masked_loss_run :
  exists v,
    MaskedLoss.forward l1_elementwise
      (mkTensor4 1 1 1 3 (fun _ _ _ x => Float.of_nat x))
      (mkTensor4 1 1 1 3 (fun _ _ _ _ => Float.Fin 5))
      (mkTensor4 1 1 1 3 (fun _ _ _ x => Float.Fin (if x is O then 0 else 1)))
    = Return (Float.Fin v) /\ (v == 7 # 2)%Q.
Proof. eexists. split; [vm_compute; reflexivity|reflexivity]. Qed.

(** * Further properties *)


(** ** Slices and the split of the member indices *)

Lemma adjust_index_bounds (len i : Z) :
  0 <= len -> 0 <= PySlice.adjust_index len i <= len.
Proof.
  intros H. unfold PySlice.adjust_index.
  destruct (Z.ltb_spec i 0); lia.
Qed.

(** [l[:s] + l[s:]] is [l], whatever the integer [s]. *)
Lemma slice_split {A} (l : list A) (s : Z) :
  PySlice.get l (None, Some s) ++ PySlice.get l (Some s, None) = l.
Proof.
  unfold PySlice.get, PySlice.range. cbn [fst snd].
  pose proof (adjust_index_bounds (Z.of_nat (length l)) s ltac:(lia)) as Hb.
  set (k := PySlice.adjust_index (Z.of_nat (length l)) s) in *.
  replace (Z.to_nat (Z.max 0 (k - 0))) with (Z.to_nat k) by lia.
  change (Z.to_nat 0) with 0%nat. rewrite drop_0.
  rewrite (take_ge (drop _ _)) by (rewrite length_drop; lia).
  apply take_drop.
Qed.

Lemma slice_upto_length {A} (l : list A) (s : Z) :
  length (PySlice.get l (None, Some s))
  = Z.to_nat (PySlice.adjust_index (Z.of_nat (length l)) s).
Proof.
  unfold PySlice.get, PySlice.range. cbn [fst snd].
  pose proof (adjust_index_bounds (Z.of_nat (length l)) s ltac:(lia)) as Hb.
  set (k := PySlice.adjust_index (Z.of_nat (length l)) s) in *.
  change (Z.to_nat 0) with 0%nat. rewrite drop_0, length_take. lia.
Qed.

(** X1. [MyDataset.__init__] partitions the member indices for every
    integer [split], also outside [0, n]: the two index lists are disjoint
    and together a permutation of [0, ..., n-1].  A split of [n] or more
    leaves the test list empty, a negative split counts from the end
    (the train list has [n + split] elements, none when [split <= -n]). *)
Theorem MyDataset_partition_any_split (data : DataArray) (split : Z) (g : Np.rng) :
  let n := size1 data in
  let self := (MyDataset.init data split g).1 in
  let train := MyDataset.train_indices self in
  let test := MyDataset.test_indices self in
  train ++ test ≡ₚ seq 0 n /\
  (forall m, m ∈ train -> m ∉ test) /\
  (length train + length test = n)%nat /\
  (0 <= split -> length train = Nat.min (Z.to_nat split) n) /\
  (split < 0 -> length train = Z.to_nat (Z.of_nat n + split)) /\
  (Z.of_nat n <= split -> test = []).
Proof.
  intros n. unfold MyDataset.init.
  destruct (Np.shuffle (Np.arange (size1 data)) g) as [p g'] eqn:Hp.
  assert (Hperm : p ≡ₚ seq 0 n).
  { change p with (p, g').1. rewrite <- Hp. apply shuffle_Permutation. }
  assert (Hlen : length p = n) by (rewrite Hperm; apply length_seq).
  cbn [fst MyDataset.train_indices MyDataset.test_indices].
  pose proof (slice_split p split) as Hsplit.
  pose proof (slice_upto_length p split) as Hl.
  set (train := PySlice.get p (None, Some split)) in *.
  set (test := PySlice.get p (Some split, None)) in *.
  assert (Hnd : NoDup (train ++ test)).
  { rewrite Hsplit, Hperm. apply NoDup_seq. }
  apply NoDup_app in Hnd as (_ & Hdisj & _).
  assert (Hsum : (length train + length test = n)%nat).
  { rewrite <- length_app, Hsplit. exact Hlen. }
  split; [by rewrite Hsplit|]. split; [exact Hdisj|]. split; [exact Hsum|].
  rewrite Hlen in Hl. unfold PySlice.adjust_index in Hl.
  split; [|split].
  - intros Hs. rewrite Hl. destruct (Z.ltb_spec split 0); lia.
  - intros Hs. rewrite Hl. destruct (Z.ltb_spec split 0); lia.
  - intros Hs. apply length_zero_iff_nil.
    assert (length train = n) by (rewrite Hl; destruct (Z.ltb_spec split 0); lia).
    lia.
Qed.

(** ** [UNet.crop] on arbitrary maps *)

Lemma range_within (s : PySlice.t) (len : nat) :
  ((PySlice.range s len).1 + (PySlice.range s len).2 <= len)%nat.
Proof.
  unfold PySlice.range. cbn [fst snd].
  destruct s as [[a|] [b|]]; cbn [fst snd];
    repeat match goal with
           | |- context [PySlice.adjust_index ?n ?i] =>
               let H := fresh in
               pose proof (adjust_index_bounds n i ltac:(lia)) as H;
               generalize dependent (PySlice.adjust_index n i); intros
           end; lia.
Qed.

Lemma getitem_hw_window {A} (t : Tensor4 A) (sy sx : PySlice.t) :
  window_of t (getitem_hw t sy sx).
Proof.
  unfold getitem_hw.
  pose proof (range_within sy (size2 t)) as Hy.
  pose proof (range_within sx (size3 t)) as Hx.
  destruct (PySlice.range sy (size2 t)) as [oy h].
  destruct (PySlice.range sx (size3 t)) as [ox w].
  exists oy, ox. cbn [size0 size1 size2 size3 at4 fst snd] in *.
  repeat (split; [done|]). done.
Qed.

Lemma window_of_refl {A} (t : Tensor4 A) : window_of t t.
Proof. exists 0%nat, 0%nat. repeat (split; [done || lia|]). done. Qed.

Lemma window_of_trans {A} (t u v : Tensor4 A) :
  window_of t u -> window_of u v -> window_of t v.
Proof.
  intros (oy & ox & E0 & E1 & By & Bx & Hu) (oy' & ox' & E0' & E1' & By' & Bx' & Hv).
  exists (oy + oy')%nat, (ox + ox')%nat.
  split; [congruence|]. split; [congruence|].
  split; [lia|]. split; [lia|].
  intros n c y x Hy Hx. rewrite Hv, Hu by lia. f_equal; lia.
Qed.

(** X2. For every pair of maps, also when the encoder map is the smaller
    one, [UNet.crop] returns a contiguous spatial window of
    [encoder_layer] with its batches and channels: it never adds rows or
    columns.  Where the encoder map is smaller than the decoder map along
    an axis, the result is smaller than the decoder map too. *)
Theorem crop_window {A} (encoder_layer decoder_layer : Tensor4 A) :
  window_of encoder_layer (UNet.crop encoder_layer decoder_layer) /\
  ((size2 encoder_layer < size2 decoder_layer)%nat ->
   (size2 (UNet.crop encoder_layer decoder_layer) < size2 decoder_layer)%nat) /\
  ((size3 encoder_layer < size3 decoder_layer)%nat ->
   (size3 (UNet.crop encoder_layer decoder_layer) < size3 decoder_layer)%nat).
Proof.
  assert (W : window_of encoder_layer (UNet.crop encoder_layer decoder_layer)).
  { unfold UNet.crop. cbv zeta.
    repeat match goal with
           | |- context [if ?b then _ else _] => destruct b
           end;
      repeat (eapply window_of_trans; [|apply getitem_hw_window]);
      apply window_of_refl || apply getitem_hw_window. }
  split; [exact W|].
  destruct W as (oy & ox & _ & _ & By & Bx & _). split; lia.
Qed.

(** ** [UNet.forward] on inputs of any size *)

(** X3. For a network with input and output channels and an input of shape
    (N, channels_in, H, W) with H and W at least 8, [UNet.forward] returns a
    tensor with N batches, [channels_out] channels and height
    [8 * (H / 8)]; its width is [8 * (W / 8)] plus the number of cropped
    skip connections, because the final padding adds that many columns at
    the left and no rows. *)
Theorem forward_shape_any_size (channels_in channels_out : nat) (x : Tensor4 unit) :
  size1 x = channels_in ->
  (1 <= channels_in)%nat -> (1 <= channels_out)%nat ->
  (8 <= size2 x)%nat -> (8 <= size3 x)%nat ->
  exists out,
    UNet.forward_body (UNet.init channels_in channels_out) x
    = Return (out, crops_needed (size2 x) (size3 x)) /\
    shape <$> UNet.forward (UNet.init channels_in channels_out) x
    = Return (size0 x, channels_out, 8 * (size2 x / 8),
              crops_needed (size2 x) (size3 x) + 8 * (size3 x / 8))%nat.
Proof.
  intros Hc Hin Hout Hh Hw.
  destruct (forward_any_size channels_in channels_out x Hc Hin Hout Hh Hw)
    as (out & Hb & _ & Hf).
  eauto.
Qed.

Lemma forward_shape_any_size_witness :
  exists out,
    UNet.forward_body (UNet.init 3 5) (Torch.blank 2 3 17 20)
    = Return (out, crops_needed 17 20) /\
    shape <$> UNet.forward (UNet.init 3 5) (Torch.blank 2 3 17 20)
    = Return (2, 5, 8 * (17 / 8), crops_needed 17 20 + 8 * (20 / 8))%nat.
Proof.
  apply (forward_shape_any_size 3 5 (Torch.blank 2 3 17 20)).
  - reflexivity.
  - lia.
  - lia.
  - simpl. lia.
  - simpl. lia.
Defined.

Lemma Return_shape_inj (a b c d a' b' c' d' : nat) :
  @Return (nat * nat * nat * nat) (a, b, c, d) = Return (a', b', c', d') ->
  c = c' /\ d = d'.
Proof. intros H. by simplify_eq. Qed.

(** X4. For a network with input and output channels and an input with H
    and W at least 8, the output of [UNet.forward] has the spatial shape of
    the input exactly when H is a multiple of 8 and the remainder of W by 8
    is 0, 1 or 2: the left padding makes up for one or two lost columns,
    never for lost rows. *)
Theorem forward_keeps_shape_iff (channels_in channels_out : nat) (x : Tensor4 unit) :
  size1 x = channels_in ->
  (1 <= channels_in)%nat -> (1 <= channels_out)%nat ->
  (8 <= size2 x)%nat -> (8 <= size3 x)%nat ->
  shape <$> UNet.forward (UNet.init channels_in channels_out) x
  = Return (size0 x, channels_out, size2 x, size3 x)
  <-> (size2 x mod 8 = 0 /\ size3 x mod 8 <= 2)%nat.
Proof.
  intros Hc Hin Hout Hh Hw.
  destruct (forward_any_size channels_in channels_out x Hc Hin Hout Hh Hw)
    as (out & _ & _ & ->).
  unfold crops_needed.
  split.
  - intros [Eh Ew]%Return_shape_inj. revert Ew.
    repeat case_bool_decide; zify; Z.to_euclidean_division_equations; lia.
  - intros [Eh Ew]. f_equal. f_equal; [f_equal|].
    + zify; Z.to_euclidean_division_equations; lia.
    + repeat case_bool_decide; zify; Z.to_euclidean_division_equations; lia.
Qed.

Lemma forward_keeps_shape_iff_witness :
  shape <$> UNet.forward (UNet.init 3 5) (Torch.blank 2 3 16 18)
  = Return (2, 5, 16, 18)%nat
  <-> (16 mod 8 = 0 /\ 18 mod 8 <= 2)%nat.
Proof.
  apply (forward_keeps_shape_iff 3 5 (Torch.blank 2 3 16 18)).
  - reflexivity.
  - lia.
  - lia.
  - simpl. lia.
  - simpl. lia.
Defined.

(** An input of 16 by 18 keeps its shape although two skip connections are
    cropped; an input of 16 by 19 comes out one column short. *)
Example forward_run_16_18 :
  shape <$> UNet.forward (UNet.init 1 1) (Torch.blank 1 1 16 18)
  = Return (1, 1, 16, 18)%nat /\
  shape <$> UNet.forward (UNet.init 1 1) (Torch.blank 1 1 16 19)
  = Return (1, 1, 16, 18)%nat.
Proof. split; vm_compute; reflexivity. Qed.

(** ** Floating-point numbers: order and finite results *)

Lemma ltb_trans (a b c : Float.t) :
  Float.ltb a b = true -> Float.ltb b c = true -> Float.ltb a c = true.
Proof.
  destruct a as [x| | |], b as [y| | |], c as [z| | |]; cbn; try done.
  destruct (Qlt_le_dec x y), (Qlt_le_dec y z), (Qlt_le_dec x z); try done.
  lra.
Qed.

Lemma ltb_PInf (a : Float.t) : Float.is_finite a -> Float.ltb a Float.PInf = true.
Proof. by destruct a. Qed.

Lemma add_finite (a b : Float.t) :
  Float.is_finite a -> Float.is_finite b -> Float.is_finite (Float.add a b).
Proof. by destruct a, b. Qed.

Lemma div_of_nat_finite (a : Float.t) (n : nat) :
  Float.is_finite a -> n <> 0%nat -> Float.is_finite (Float.div a (Float.of_nat n)).
Proof.
  destruct a as [q| | |]; try done. intros _ Hn.
  by rewrite div_of_nat by lia.
Qed.

(** Finite numbers add up to the sum of their values. *)
Lemma foldl_add_Fin (q : Q) (qs : list Q) :
  exists v, foldl Float.add (Float.Fin q) (Float.Fin <$> qs) = Float.Fin v
            /\ (v == q + Xr.list_sum qs)%Q.
Proof.
  revert q. induction qs as [|w qs IH]; intros q.
  - exists q. split; [reflexivity|]. rewrite list_sum_nil. ring.
  - destruct (IH (q + w)%Q) as (v & Ev & Hv).
    exists v. split; [exact Ev|]. rewrite Hv, list_sum_cons. ring.
Qed.

(** ** [UNet.evaluate] *)

Section LoopFacts.
Context {Net Input Target Output Mask : Type}.
Variable call : Net -> Input -> Output.
Variable loss_fn : Output -> Target -> Float.t.
Variable loss_fn_masked : Output -> Target -> Mask -> Float.t.
Variable batch_len : Output -> nat.
Variable optimize : Net -> Input -> Target -> option Mask -> Net.

Local Abbreviation compute_loss := (Loops.compute_loss loss_fn loss_fn_masked).
Local Abbreviation evaluate_loop := (Loops.evaluate_loop call loss_fn loss_fn_masked).
Local Abbreviation evaluate := (Loops.evaluate call loss_fn loss_fn_masked).

(** The loss of each batch, in the order of the data loader. *)
Local Abbreviation batch_losses self dataloader mask :=
  (map (fun b : Input * Target => compute_loss (call self b.1) b.2 mask) dataloader).

Lemma evaluate_loop_loss (self : Net) (dataloader : list (Input * Target))
      (mask : option Mask) (loss : Float.t) (y_preds : option (list Output)) :
  (evaluate_loop self dataloader mask loss y_preds).1
  = foldl Float.add loss (batch_losses self dataloader mask).
Proof.
  revert loss y_preds.
  induction dataloader as [|[input target] rest IH]; intros loss y_preds.
  - reflexivity.
  - cbn [Loops.evaluate_loop map foldl fst snd]. apply IH.
Qed.

Lemma evaluate_loop_preds (self : Net) (dataloader : list (Input * Target))
      (mask : option Mask) (loss : Float.t) (y_preds : option (list Output)) :
  (evaluate_loop self dataloader mask loss y_preds).2
  = (fun l => l ++ map (fun b => call self b.1) dataloader) <$> y_preds.
Proof.
  revert loss y_preds.
  induction dataloader as [|[input target] rest IH]; intros loss y_preds.
  - cbn. destruct y_preds; cbn; [by rewrite app_nil_r|done].
  - cbn [Loops.evaluate_loop map fst]. rewrite IH.
    destruct y_preds; cbn; [by rewrite <- app_assoc|done].
Qed.


(** ** [UNet.train_model] *)

Local Abbreviation train_batches :=
  (Loops.train_batches call loss_fn loss_fn_masked batch_len optimize).
Local Abbreviation train_epochs :=
  (Loops.train_epochs call loss_fn loss_fn_masked batch_len optimize).
Local Abbreviation train_model :=
  (Loops.train_model call loss_fn loss_fn_masked batch_len optimize).
Local Abbreviation event := (@Loops.event Net).

Lemma last_metric_app (last : option Float.t) (l1 l2 : list event) :
  last_metric last (l1 ++ l2) = last_metric (last_metric last l1) l2.
Proof. unfold last_metric. apply foldl_app. Qed.

Lemma checkpoint_losses_app (last : option Float.t) (l1 l2 : list event) :
  Loops.checkpoint_losses last (l1 ++ l2)
  = Loops.checkpoint_losses last l1
    ++ Loops.checkpoint_losses (last_metric last l1) l2.
Proof.
  revert last. induction l1 as [|[k v|m] l1 IH]; intros last; cbn.
  - reflexivity.
  - apply IH.
  - destruct last; cbn; by rewrite IH.
Qed.

Lemma checkpoint_losses_metrics (last : option Float.t) (ms : list event) :
  Forall is_metric ms -> Loops.checkpoint_losses last ms = [].
Proof.
  intros H. revert last. induction H as [|[k v|m] ms Hm _ IH]; intros last; cbn;
    [done|apply IH|done].
Qed.

Lemma checkpoints_metrics (ms : list event) :
  Forall is_metric ms -> Loops.checkpoints ms = [].
Proof.
  induction 1 as [|[k v|m] ms Hm _ IH]; cbn; [done|apply IH|done].
Qed.

Lemma metrics_length (ms : list event) :
  Forall is_metric ms -> length (Loops.metrics ms) = length ms.
Proof.
  induction 1 as [|[k v|m] ms Hm _ IH]; cbn; [done|by rewrite <- IH|done].
Qed.

Lemma metrics_app (l1 l2 : list event) :
  Loops.metrics (l1 ++ l2) = Loops.metrics l1 ++ Loops.metrics l2.
Proof. apply omap_app. Qed.

Lemma checkpoints_app (l1 l2 : list event) :
  Loops.checkpoints (l1 ++ l2) = Loops.checkpoints l1 ++ Loops.checkpoints l2.
Proof. apply omap_app. Qed.

Lemma decreasing_snoc (l : list Float.t) (a : Float.t) :
  decreasing l -> (forall b, last l = Some b -> Float.ltb a b = true) ->
  decreasing (l ++ [a]).
Proof.
  intros Hd Hlast i j x y Hij Hi Hj.
  assert (Hjl : (j < length (l ++ [a]))%nat) by eauto using lookup_lt_Some.
  rewrite length_app in Hjl. cbn in Hjl.
  rewrite lookup_app_l in Hi by lia.
  destruct (decide (j < length l)%nat) as [Hlt|Hge].
  - rewrite lookup_app_l in Hj by lia. eauto.
  - rewrite lookup_app_r in Hj by lia.
    replace (j - length l)%nat with 0%nat in Hj by lia.
    cbn in Hj. injection Hj as <-.
    destruct (last l) as [b|] eqn:Hb.
    2:{ apply last_None in Hb. subst l. done. }
    specialize (Hlast b eq_refl).
    rewrite last_lookup in Hb.
    destruct (decide (i = Nat.pred (length l))) as [->|Hne].
    + congruence.
    + apply ltb_trans with b; [done|].
      apply (Hd i (Nat.pred (length l))); [lia|done|done].
Qed.

(** One epoch over batches whose outputs are not empty: every batch logs
    one metric and nothing else, and the average after the last batch is
    the metric logged last; it is finite when the losses are. *)
Lemma train_batches_log (dataloader : list (Input * Target)) (mask : option Mask) :
  (forall net input, batch_len (call net input) <> 0%nat) ->
  forall self running_loss avg_loss log,
  exists self' ms,
    train_batches self dataloader mask running_loss avg_loss log
    = Ok (self', last_metric avg_loss ms, log ++ ms) /\
    Forall is_metric ms /\ length ms = length dataloader /\
    (dataloader <> [] -> is_Some (last_metric avg_loss ms)) /\
    ((forall output target, Float.is_finite (compute_loss output target mask)) ->
     Float.is_finite running_loss -> dataloader <> [] ->
     forall v, last_metric avg_loss ms = Some v -> Float.is_finite v).
Proof.
  intros Hlen.
  induction dataloader as [|[input target] rest IH];
    intros self running_loss avg_loss log.
  - exists self, []. cbn. rewrite app_nil_r. done.
  - cbn [Loops.train_batches].
    rewrite bool_decide_eq_false_2 by apply Hlen.
    edestruct IH as (self' & ms & -> & Hms & Hl & Hsome & Hfinite).
    eexists self', (Loops.LogMetric _ _ :: ms). rewrite <- app_assoc. cbn [app].
    split; [reflexivity|]. split; [by constructor|]. split; [cbn; by rewrite Hl|].
    split.
    + intros _. destruct rest as [|b rest].
      * destruct ms; [cbn; eauto|done].
      * apply Hsome. done.
    + intros Hfin Hrun _ v Hv.
      assert (Hrun' : Float.is_finite
                        (Float.add running_loss
                           (compute_loss (call self input) target mask)))
        by (by apply add_finite).
      destruct rest as [|b rest].
      * destruct ms; [|done]. cbn in Hv. injection Hv as <-.
        apply div_of_nat_finite; [exact Hrun'|apply Hlen].
      * by apply (Hfinite Hfin Hrun').
Qed.

Lemma train_epochs_log (dataloader : list (Input * Target)) (mask : option Mask) :
  (forall net input, batch_len (call net input) <> 0%nat) ->
  dataloader <> [] ->
  forall num_epochs self best_loss avg_loss log,
    decreasing (Loops.checkpoint_losses None log) ->
    best_loss = default Float.PInf (last (Loops.checkpoint_losses None log)) ->
    avg_loss = last_metric None log ->
    exists self' log',
      train_epochs num_epochs self dataloader mask best_loss avg_loss log
      = Ok (self', log') /\
      length (Loops.metrics log')
      = (length (Loops.metrics log) + num_epochs * length dataloader)%nat /\
      (length (Loops.checkpoints log) <= length (Loops.checkpoints log'))%nat /\
      (length (Loops.checkpoints log') <= length (Loops.checkpoints log) + num_epochs)%nat /\
      ((forall output target, Float.is_finite (compute_loss output target mask)) ->
       best_loss = Float.PInf -> (1 <= num_epochs)%nat ->
       (1 <= length (Loops.checkpoints log'))%nat) /\
      decreasing (Loops.checkpoint_losses None log').
Proof.
  intros Hlen Hne. induction num_epochs as [|n IH];
    intros self best_loss avg_loss log Hdec Hbest Havg.
  - exists self, log. cbn. repeat split; [lia|lia|lia|lia|done].
  - cbn [Loops.train_epochs].
    destruct (train_batches_log dataloader mask Hlen self Float.zero avg_loss log)
      as (self1 & ms & -> & Hms & Hl & Hsome & Hfinite).
    cbn [mbind outcome_bind].
    destruct (Hsome Hne) as [avg Havg1]. rewrite Havg1.
    assert (Hlast : last_metric None (log ++ ms) = Some avg).
    { rewrite last_metric_app, <- Havg. exact Havg1. }
    assert (Hcl : Loops.checkpoint_losses None (log ++ ms)
                  = Loops.checkpoint_losses None log).
    { rewrite checkpoint_losses_app, (checkpoint_losses_metrics _ ms) by done.
      apply app_nil_r. }
    assert (Hm : length (Loops.metrics (log ++ ms))
                 = (length (Loops.metrics log) + length dataloader)%nat).
    { rewrite metrics_app, length_app, (metrics_length ms) by done. by rewrite Hl. }
    assert (Hc : Loops.checkpoints (log ++ ms) = Loops.checkpoints log).
    { rewrite checkpoints_app, (checkpoints_metrics ms) by done. apply app_nil_r. }
    destruct (Float.ltb avg best_loss) eqn:Hbelow.
    + edestruct (IH self1 avg (Some avg) ((log ++ ms) ++ [Loops.LogModel self1]))
        as (self' & log' & -> & Hm' & Hc0 & Hc' & _ & Hd').
      * rewrite checkpoint_losses_app, Hlast, Hcl. cbn.
        apply decreasing_snoc; [done|].
        intros b Hb. rewrite Hbest, Hb in Hbelow. exact Hbelow.
      * rewrite checkpoint_losses_app, Hlast. cbn. by rewrite last_snoc.
      * rewrite last_metric_app, Hlast. reflexivity.
      * exists self', log'. split; [reflexivity|].
        rewrite metrics_app, length_app, Hm in Hm'.
        rewrite checkpoints_app, length_app, Hc in Hc', Hc0.
        cbn [Loops.metrics Loops.checkpoints omap list_omap length] in Hm', Hc', Hc0.
        split; [lia|]. split; [lia|]. split; [lia|]. split; [|done].
        intros _ _ _. lia.
    + edestruct (IH self1 best_loss (Some avg) (log ++ ms))
        as (self' & log' & -> & Hm' & Hc0 & Hc' & Hfirst & Hd').
      * by rewrite Hcl.
      * by rewrite Hcl.
      * by rewrite Hlast.
      * exists self', log'. split; [reflexivity|].
        rewrite Hm in Hm'. rewrite Hc in Hc', Hc0.
        split; [lia|]. split; [lia|]. split; [lia|]. split; [|done].
        intros Hfin Hinf _. exfalso.
        rewrite Hinf, ltb_PInf in Hbelow; [done|].
        by apply (Hfinite Hfin I Hne).
Qed.


(** X7. With an empty data loader [train_model] logs nothing: it returns at
    once when no epoch is asked for, and otherwise raises
    [UnboundLocalError] at the end of the first epoch, where [avg_loss] is
    read without ever having been assigned. *)
Theorem train_model_empty_loader (self : Net) (mask : option Mask)
        (num_epochs : nat) :
  train_model self [] mask num_epochs
  = match num_epochs with
    | O => Ok (self, [])
    | S _ => Err (UnboundLocalError "avg_loss")
    end.
Proof. destruct num_epochs; reflexivity. Qed.

End LoopFacts.


(** A loss of NaN is below nothing, not even below the infinity the best
    loss starts with: three epochs log their metrics and no checkpoint. *)
Example train_model_nan_run :
  exists self' log,
    Loops.train_model (fun (net input : nat) => [input])
      (fun (_ : list nat) (_ : nat) => Float.NaN)
      (fun (_ : list nat) (_ _ : nat) => Float.NaN)
      length (fun (net _ _ : nat) (_ : option nat) => net)
      0%nat [(1, 1); (2, 2)]%nat None 3 = Ok (self', log) /\
    Loops.metrics log = replicate 6 Float.NaN /\
    Loops.checkpoints log = [].
Proof. do 2 eexists. split; [reflexivity|]. split; reflexivity. Qed.

(** ** [setup_mlflow] *)

Lemma append_cons (a : Ascii.ascii) (s t : string) :
  (String a s +:+ t = String a (s +:+ t))%string.
Proof. reflexivity. Qed.

Lemma append_nil (t : string) : ("" +:+ t = t)%string.
Proof. reflexivity. Qed.

Lemma prefix_spec (s1 s2 : string) :
  String.prefix s1 s2 = true <-> exists post, s2 = (s1 +:+ post)%string.
Proof.
  revert s1. induction s2 as [|b s2 IH]; intros [|a s1]; cbn.
  - split; [by exists ""%string|done].
  - split; [done|]. intros [post E]. by rewrite append_cons in E.
  - split; [by exists (String b s2)|done].
  - destruct (Ascii.ascii_dec a b) as [->|Hne].
    + rewrite IH. split; intros [post E]; exists post;
        rewrite append_cons in *; congruence.
    + split; [done|]. intros [post E]. rewrite append_cons in E. congruence.
Qed.

Lemma contains_spec (needle hay : string) :
  Tracking.contains needle hay = true
  <-> exists pre post, hay = (pre +:+ needle +:+ post)%string.
Proof.
  induction hay as [|c hay IH]; cbn [Tracking.contains].
  - destruct (String.prefix needle "") eqn:Hp.
    + apply prefix_spec in Hp as [post Hp]. split; [|done].
      intros _. by exists ""%string, post.
    + split; [done|].
      intros ([|? pre] & post & E); [|by rewrite append_cons in E].
      assert (String.prefix needle "" = true) as Ht; [|congruence].
      apply prefix_spec. by exists post.
  - destruct (String.prefix needle (String c hay)) eqn:Hp.
    + apply prefix_spec in Hp as [post Hp]. split; [|done].
      intros _. by exists ""%string, post.
    + rewrite IH. split.
      * intros (pre & post & ->). exists (String c pre), post.
        by rewrite append_cons.
      * intros ([|c' pre] & post & E).
        -- assert (String.prefix needle (String c hay) = true) as Ht; [|congruence].
           apply prefix_spec. by exists post.
        -- rewrite append_cons in E. injection E as -> ->. by exists pre, post.
Qed.

(** X8. [setup_mlflow] never raises.  It names the experiment
    ["WGN_balfrin"] exactly when the host name contains ["nid"], and ["WGN"]
    otherwise; afterwards this experiment exists and is the active one.  An
    experiment that existed before keeps its artifact location, whatever
    path is returned; a new one gets the returned path; the other
    experiments are left as they are. *)
Theorem setup_mlflow_store (default_location : string -> string)
        (hostname : string) (store : Tracking.t) :
  exists artifact_path experiment_name store',
    Tracking.setup_mlflow default_location hostname store
    = Ok (artifact_path, experiment_name, store') /\
    (experiment_name = "WGN_balfrin"%string
     <-> exists pre post, hostname = (pre +:+ "nid" +:+ post)%string) /\
    (experiment_name = "WGN_balfrin"%string \/ experiment_name = "WGN"%string) /\
    Tracking.active store' = Some experiment_name /\
    Tracking.experiments store' !! experiment_name
    = Some (default artifact_path (Tracking.experiments store !! experiment_name)) /\
    (forall other, other <> experiment_name ->
       Tracking.experiments store' !! other = Tracking.experiments store !! other).
Proof.
  unfold Tracking.setup_mlflow.
  pose proof (contains_spec "nid" hostname) as Hc.
  destruct (Tracking.contains "nid" hostname);
    unfold Tracking.get_experiment_by_name, Tracking.create_experiment,
      Tracking.set_experiment.
  all: match goal with
       | |- context [Tracking.experiments ?s !! ?name] =>
           destruct (Tracking.experiments s !! name) as [loc|] eqn:Hl
       end;
    cbn [mbind outcome_bind Tracking.experiments Tracking.active].
  all: rewrite ?Hl, ?lookup_insert_eq;
    cbn [Tracking.experiments Tracking.active];
    do 3 eexists; (split; [reflexivity|]).
  all: cbn [Tracking.experiments Tracking.active default].
  all: split;
    [ split; [ try done; intros _; by apply Hc
             | try done; intros E; apply Hc in E; done ] |].
  all: split; [by (left + right)|].
  all: split; [reflexivity|].
  all: split; [by rewrite ?lookup_insert_eq, ?Hl|].
  all: intros other Hother; by rewrite ?lookup_insert_ne.
Qed.

(** X9. Running [setup_mlflow] again on the store it left returns the same
    path and name and leaves the store unchanged. *)
Theorem setup_mlflow_idempotent (default_location : string -> string)
        (hostname : string) (store store' : Tracking.t) (r : string * string) :
  Tracking.setup_mlflow default_location hostname store = Ok (r, store') ->
  Tracking.setup_mlflow default_location hostname store' = Ok (r, store').
Proof.
  unfold Tracking.setup_mlflow.
  destruct (Tracking.contains "nid" hostname);
    unfold Tracking.get_experiment_by_name, Tracking.create_experiment,
      Tracking.set_experiment.
  all: match goal with
       | |- context [Tracking.experiments ?s !! ?name] =>
           destruct (Tracking.experiments s !! name) as [loc|] eqn:Hl
       end;
    cbn [mbind outcome_bind Tracking.experiments Tracking.active].
  all: rewrite ?Hl, ?lookup_insert_eq;
    cbn [Tracking.experiments Tracking.active];
    intros E; injection E as <- <-;
    cbn [Tracking.experiments Tracking.active];
    rewrite ?Hl, ?lookup_insert_eq;
    cbn [mbind outcome_bind Tracking.experiments Tracking.active];
    rewrite ?Hl, ?lookup_insert_eq; reflexivity.
Qed.

Lemma setup_mlflow_idempotent_witness :
  let default_location := fun name => ("mlruns/" +:+ name)%string in
  let store := Tracking.mk {[ "WGN" := "/old/location" ]}%string None in
  let store' := Tracking.mk {[ "WGN" := "/old/location" ]}%string (Some "WGN"%string) in
  Tracking.setup_mlflow default_location "tsa-ln002" store'
  = Ok ("/scratch/sadamov/pyprojects_data/weathergraphnet/mlruns"%string,
        "WGN"%string, store').
Proof.
  intros default_location store store'.
  apply (setup_mlflow_idempotent default_location "tsa-ln002" store store').
  vm_compute. reflexivity.
Defined.

(** ** [load_best_model] *)

(** X10. [load_best_model] returns no model: for every experiment it ends
    in the [ValueError] of [get_runs], before a run is chosen and before
    anything is loaded. *)
Theorem load_best_model_raises {Net : Type} (get_artifact_uri : string)
        (abspath_up2 : string -> string) (path_join : list string -> string)
        (load_model : string -> result Net)
        (srv : Mlflow.server) (experiment_name : string) :
  load_best_model get_artifact_uri abspath_up2 path_join load_model
                  srv experiment_name
  = Raise (ValueError "The truth value of a DataFrame is ambiguous.").
Proof.
  unfold load_best_model. rewrite get_runs_always_raises. reflexivity.
Qed.

(** ** [downscale_data] of train_cnn.py: when it is defined, and coarsening
    by one *)

Lemma coarsen_reduce_refused (d : DataArray) (factor : Z)
      (func : list (option Q) -> option Q) :
  ~ coarsenable d factor ->
  is_ValueError (Xr.coarsen_reduce d factor factor func).
Proof.
  intros Hn. unfold Xr.coarsen_reduce.
  case_bool_decide as H1; [exact I|].
  case_bool_decide as H2; [exact I|].
  exfalso. apply Hn. unfold coarsenable.
  split; [lia|].
  split; apply Z.mod_divide; try lia;
    destruct (decide (Z.of_nat (size2 d) `mod` factor = 0));
    destruct (decide (Z.of_nat (size3 d) `mod` factor = 0)); tauto.
Qed.

Lemma classic_coarsenable (d : DataArray) (factor : Z) :
  coarsenable d factor \/ ~ coarsenable d factor.
Proof.
  unfold coarsenable.
  destruct (decide (0 < factor)); [|right; tauto].
  destruct (decide (Z.of_nat (size2 d) `mod` factor = 0)) as [Hy|Hy];
    destruct (decide (Z.of_nat (size3 d) `mod` factor = 0)) as [Hx|Hx].
  - left. split; [done|]. split; apply Z.mod_divide; lia.
  - right. intros (_ & _ & Hd). apply Z.mod_divide in Hd; lia.
  - right. intros (_ & Hd & _). apply Z.mod_divide in Hd; lia.
  - right. intros (_ & Hd & _). apply Z.mod_divide in Hd; lia.
Qed.

(** X11. The [downscale_data] of train_cnn.py returns a cube exactly when
    the factor is positive and divides the height and the ncells extent of
    the cube; for every other factor it raises [ValueError]. *)
Theorem downscale_data_defined_iff (data : DataArray) (factor : Z) :
  ((exists out, TrainCnn.downscale_data data factor = Return out)
   <-> coarsenable data factor) /\
  (~ coarsenable data factor ->
   is_ValueError (TrainCnn.downscale_data data factor)).
Proof.
  unfold TrainCnn.downscale_data, Xr.coarsen_mean.
  split; [|by apply coarsen_reduce_refused].
  split.
  - intros [out Hout].
    destruct (classic_coarsenable data factor) as [Hc|Hc]; [done|].
    apply (coarsen_reduce_refused _ _ Xr.duck_mean) in Hc. by rewrite Hout in Hc.
  - intros (Hpos & Hy & Hx). rewrite coarsen_reduce_ok by done. eauto.
Qed.

Lemma list_mean_single (v : Q) : (Xr.list_mean [v] == v)%Q.
Proof. unfold Xr.list_mean, Xr.list_sum. cbn. field. Qed.

Lemma block_by_one (d : DataArray) (t m y x : nat) :
  Xr.block d 1 1 t m y x = [at4 d t m y x].
Proof.
  unfold Xr.block. cbn. by rewrite !Nat.mul_1_r, !Nat.add_0_r.
Qed.

(** X12. Coarsening by a factor of one changes nothing: the
    [downscale_data] of train_cnn.py returns a cube of the same shape with
    the same cells, missing cells included. *)
Theorem downscale_data_by_one (data : DataArray) :
  exists out,
    TrainCnn.downscale_data data 1 = Return out /\
    shape out = shape data /\
    forall t m y x, cell_eq (at4 out t m y x) (at4 data t m y x).
Proof.
  unfold TrainCnn.downscale_data, Xr.coarsen_mean.
  rewrite coarsen_reduce_ok by (try lia; apply Z.divide_1_l).
  eexists. split; [reflexivity|].
  change (Z.to_nat 1) with 1%nat.
  unfold shape. cbn [size0 size1 size2 size3 at4]. rewrite !Nat.div_1_r.
  split; [reflexivity|].
  intros t m y x. rewrite block_by_one.
  destruct (at4 data t m y x) as [v|]; cbn; [|done].
  apply list_mean_single.
Qed.

(** ** [load_config_and_data]: what it returns and what it refuses *)

(** X13. [load_config_and_data] never returns coarsened data: whenever it
    returns, the configuration is the one it read and the two cubes are the
    cubes as loaded. *)
Theorem load_config_and_data_returns_as_loaded
    (load_data : gmap string Utils.json -> result (DataArray * DataArray))
    (config cfg : gmap string Utils.json) (data_train data_test : DataArray) :
  Utils.load_config_and_data load_data config = Return (cfg, data_train, data_test) ->
  cfg = config /\
  load_data config = Return (data_train, data_test).
Proof.
  unfold Utils.load_config_and_data, Utils.getitem.
  destruct (load_data config) as [[tr te]|e]; [|done].
  cbn [mbind result_bind].
  destruct (config !! "coarsen") as [[|b|z|str]|]; cbn [mbind result_bind Utils.gt_one];
    try done.
  - by intros [= <- <- <-].
  - destruct (1 <? z) eqn:Hz; [done|]. by intros [= <- <- <-].
Qed.

Lemma load_config_and_data_returns_as_loaded_witness :
  let train : DataArray := mkTensor4 1 1 4 6 (fun _ _ y x => Some (inject_Z (Z.of_nat (y + x)))) in
  let test : DataArray := mkTensor4 1 1 2 3 (fun _ _ y x => Some (inject_Z (Z.of_nat (y * x)))) in
  let config : gmap string Utils.json := {[ "coarsen" := Utils.JInt 1 ]} in
  let load_data := fun _ : gmap string Utils.json => Return (train, test) in
  config = config /\
  load_data config = Return (train, test).
Proof.
  intros train test config load_data.
  apply (load_config_and_data_returns_as_loaded load_data config config train test).
  reflexivity.
Defined.

(** X14. The data is loaded before the configuration value is read: when
    loading fails its exception is the result, whatever the configuration
    holds.  When loading succeeds, a configuration without ["coarsen"]
    raises [KeyError], one whose ["coarsen"] is a string or null raises
    [TypeError], and a Boolean one returns both cubes as loaded. *)
Theorem load_config_and_data_errors
    (load_data : gmap string Utils.json -> result (DataArray * DataArray))
    (config : gmap string Utils.json) :
  (forall e, load_data config = Raise e ->
             Utils.load_config_and_data load_data config = Raise e) /\
  (forall data_train data_test,
      load_data config = Return (data_train, data_test) ->
      (config !! "coarsen" = None ->
       Utils.load_config_and_data load_data config = Raise (KeyError "coarsen")) /\
      (forall s, config !! "coarsen" = Some (Utils.JStr s) ->
                 exists msg, Utils.load_config_and_data load_data config
                             = Raise (TypeError msg)) /\
      (config !! "coarsen" = Some Utils.JNull ->
       exists msg, Utils.load_config_and_data load_data config
                   = Raise (TypeError msg)) /\
      (forall b, config !! "coarsen" = Some (Utils.JBool b) ->
                 Utils.load_config_and_data load_data config
                 = Return (config, data_train, data_test))).
Proof.
  split.
  - intros e He. unfold Utils.load_config_and_data. by rewrite He.
  - intros tr te Hload. unfold Utils.load_config_and_data, Utils.getitem.
    rewrite Hload. cbn [mbind result_bind].
    repeat split.
    + by intros ->.
    + intros s ->. by eexists.
    + intros ->. by eexists.
    + by intros b ->.
Qed.

(** ** Further facts about the loss functions *)

Section LossFacts.
Local Open Scope Q_scope.

(** X15. On finite numbers, with a regularization strength that is not
    negative, at least two ensemble members and a batch that is not empty,
    the loss of [EnsembleVarianceRegularizationLoss] is at most the mean
    absolute error, and it is the mean absolute error when all ensemble
    members agree: the variance term only ever lowers the loss. *)
Theorem ensemble_variance_loss_at_most_l1 (alpha : Q)
        (outputs target : Tensor4 Float.t) :
  shape target = shape outputs ->
  T.finite outputs -> T.finite target ->
  (1 <= size0 outputs)%nat -> (2 <= size1 outputs)%nat ->
  (1 <= size2 outputs)%nat -> (1 <= size3 outputs)%nat ->
  0 <= alpha ->
  exists v,
    EnsembleVarianceRegularizationLoss.forward (Float.Fin alpha) outputs target
    = Return (Float.Fin v) /\
    v <= Xr.list_mean (abs_errors outputs target) /\
    (same_members outputs -> v == Xr.list_mean (abs_errors outputs target)).
Proof.
  intros Hs Ho Ht H0 H1 H2 H3 Ha.
  destruct (forward_value alpha outputs target Hs Ho Ht H0 H1 H2 H3)
    as (v & Ev & Hv).
  exists v. split; [exact Ev|]. rewrite Hv. split.
  - assert (0 <= Xr.list_mean (ensemble_variances outputs)) as Hm.
    { unfold ensemble_variances. apply list_mean_nonneg.
      intros [[[n c] y] x] _. apply variance_nonneg.
      unfold members. rewrite length_fmap, length_seq. lia. }
    assert (0 <= alpha * Xr.list_mean (ensemble_variances outputs))
      by (by apply Qmult_le_0_compat).
    lra.
  - intros Hsame.
    assert (Xr.list_mean (ensemble_variances outputs) == 0) as ->; [|ring].
    unfold Xr.list_mean, ensemble_variances.
    rewrite list_sum_zero; [unfold Qdiv; ring|].
    intros [[[n c] y] x] (Hn & _ & Hy & Hx)%elem_of_grid.
    unfold members.
    apply (variance_constant _ _ (Float.to_Q (at4 outputs n 0%nat y x)) H1).
    intros i Hi. apply same_to_Q. by apply Hsame.
Qed.

Lemma ensemble_variance_loss_at_most_l1_witness :
  let outputs :=
    mkTensor4 1 2 1 1 (fun _ c _ _ => Float.Fin (if c is O then 1 else 3)) in
  let target := mkTensor4 1 2 1 1 (fun _ _ _ _ => Float.Fin 0) in
  exists v,
    EnsembleVarianceRegularizationLoss.forward (Float.Fin (1 # 10)) outputs target
    = Return (Float.Fin v) /\
    v <= Xr.list_mean (abs_errors outputs target) /\
    (same_members outputs -> v == Xr.list_mean (abs_errors outputs target)).
Proof.
  intros outputs target.
  apply (ensemble_variance_loss_at_most_l1 (1 # 10) outputs target).
  - reflexivity.
  - intros n c y x _ _ _ _. exact I.
  - intros n c y x _ _ _ _. exact I.
  - simpl. lia.
  - simpl. lia.
  - simpl. lia.
  - simpl. lia.
  - discriminate.
Defined.

(** X16. With a mask of ones only (nothing masked) of the shape of the
    loss, [MaskedLoss.forward] returns the plain mean of the element-wise
    loss, [torch.mean], whatever numbers the loss holds. *)
Theorem masked_loss_nothing_masked
        (loss_fn : Tensor4 Float.t -> Tensor4 Float.t -> result (Tensor4 Float.t))
        (outputs target mask loss : Tensor4 Float.t) :
  loss_fn outputs target = Return loss ->
  shape loss = shape mask ->
  constant mask Float.one ->
  exists v,
    MaskedLoss.forward loss_fn outputs target mask = Return v /\
    Float.same v (T.mean loss).
Proof.
  intros Hloss Hs Hones.
  destruct (map2_same_shape Float.mul loss mask (eq_sym Hs))
    as (ml & Eml & E0 & E1 & E2 & E3 & Hml).
  unfold MaskedLoss.forward, T.mul. rewrite Hloss. cbn [mbind result_bind].
  rewrite Eml. cbn [mbind result_bind mret result_ret].
  eexists. split; [reflexivity|].
  pose proof Hs as Hs'. apply shape_components in Hs' as (S0 & S1 & S2 & S3).
  unfold T.mean. apply div_same.
  - apply sum_same; [unfold shape; congruence|].
    intros n c y x. rewrite E0, E1, E2, E3. intros Hn Hc Hy Hx.
    rewrite Hml by done. apply mul_one_same, Hones; lia.
  - destruct (sum_values mask (fun _ => 1)) as (k & -> & Hk).
    { intros n c y x Hn Hc Hy Hx.
      specialize (Hones n c y x Hn Hc Hy Hx).
      destruct (at4 mask n c y x) as [q| | |]; try done. eauto. }
    unfold Float.of_nat. cbn [Float.same].
    rewrite Hk, list_sum_const, length_positions. unfold T.numel.
    rewrite S0, S1, S2, S3. ring.
Qed.

(** X17. [MaskedLoss.forward] depends on a mask of finite numbers whose sum
    is not zero only up to a factor: with finite losses of the shape of the
    mask, multiplying every mask entry by the same finite number other than
    zero leaves the loss as it is. *)
Theorem masked_loss_mask_scaling
        (loss_fn : Tensor4 Float.t -> Tensor4 Float.t -> result (Tensor4 Float.t))
        (k : Q) (outputs target mask loss : Tensor4 Float.t) :
  loss_fn outputs target = Return loss ->
  shape loss = shape mask ->
  T.finite loss -> T.finite mask ->
  ~ k == 0 ->
  ~ Float.same (T.sum mask) Float.zero ->
  exists v v',
    MaskedLoss.forward loss_fn outputs target (scale (Float.Fin k) mask)
    = Return (Float.Fin v) /\
    MaskedLoss.forward loss_fn outputs target mask = Return (Float.Fin v') /\
    v == v'.
Proof.
  intros Hloss Hs Hl Hm Hk Hsum.
  destruct (masked_loss_value loss_fn outputs target mask loss Hloss Hs Hl Hm)
    as (s & d & Ed & Hd & Hsd & ->).
  assert (Hd0 : ~ d == 0) by (intros E; apply Hsum; by rewrite Ed).
  assert (Hfin : T.finite (scale (Float.Fin k) mask)).
  { intros n c y x Hn Hc Hy Hx. cbn [scale at4].
    by rewrite (finite_Fin (at4 mask n c y x)) by (by apply Hm). }
  destruct (masked_loss_value loss_fn outputs target (scale (Float.Fin k) mask)
              loss Hloss Hs Hl Hfin) as (s' & d' & _ & Hd' & Hsd' & ->).
  assert (Hval : forall p, p ∈ positions mask ->
                           value (scale (Float.Fin k) mask) p == k * value mask p).
  { intros [[[n c] y] x] (Hn & Hc & Hy & Hx)%elem_of_positions.
    cbn [value scale at4].
    by rewrite (finite_Fin (at4 mask n c y x)) by (by apply Hm). }
  change (positions (scale (Float.Fin k) mask)) with (positions mask) in Hd', Hsd'.
  assert (Ed' : d' == k * d).
  { rewrite Hd', Hd, <- list_sum_scale. by apply list_sum_ext. }
  assert (Es' : s' == k * s).
  { rewrite Hsd', Hsd, <- list_sum_scale. apply list_sum_ext.
    intros p Hp. rewrite (Hval p Hp). ring. }
  assert (Hd'0 : ~ d' == 0).
  { rewrite Ed'. intros E. apply Qmult_integral in E. tauto. }
  rewrite !div_Fin by done.
  do 2 eexists. split; [reflexivity|]. split; [reflexivity|].
  rewrite Es', Ed'. field. tauto.
Qed.

Lemma broadcast_one (s : nat) : T.broadcast 1 s = Some s.
Proof.
  unfold T.broadcast. case_bool_decide as E; [by rewrite <- E|].
  by rewrite bool_decide_eq_true_2.
Qed.

(** A single number is applied to every entry of the other tensor. *)
Lemma map2_scalar (op : Float.t -> Float.t -> Float.t) (v : Float.t)
      (b : Tensor4 Float.t) :
  exists r,
    T.map2 op (T.scalar v) b = Return r /\
    size0 r = size0 b /\ size1 r = size1 b /\
    size2 r = size2 b /\ size3 r = size3 b /\
    forall n c y x,
      (n < size0 b)%nat -> (c < size1 b)%nat ->
      (y < size2 b)%nat -> (x < size3 b)%nat ->
      at4 r n c y x = op v (at4 b n c y x).
Proof.
  unfold T.map2, T.scalar. cbn [size0 size1 size2 size3 at4].
  rewrite !broadcast_one.
  eexists. split; [reflexivity|]. cbn [size0 size1 size2 size3 at4].
  do 4 (split; [reflexivity|]).
  intros n c y x Hn Hc Hy Hx. by rewrite !pos_inside.
Qed.

(** X19. When the loss function returns a single finite number, as
    [nn.L1Loss()] does with its default reduction, and the mask holds finite
    numbers whose sum is not zero, [MaskedLoss.forward] returns that number:
    the product broadcasts it over the mask, and the mask cancels in the
    quotient, so no cell is masked. *)
Theorem masked_loss_scalar_loss
        (loss_fn : Tensor4 Float.t -> Tensor4 Float.t -> result (Tensor4 Float.t))
        (outputs target mask : Tensor4 Float.t) (l : Q) :
  loss_fn outputs target = Return (T.scalar (Float.Fin l)) ->
  T.finite mask ->
  ~ Float.same (T.sum mask) Float.zero ->
  exists v,
    MaskedLoss.forward loss_fn outputs target mask = Return (Float.Fin v) /\
    v == l.
Proof.
  intros Hloss Hm Hsum.
  destruct (map2_scalar Float.mul (Float.Fin l) mask)
    as (ml & Eml & E0 & E1 & E2 & E3 & Hml).
  destruct (sum_values ml (fun p => l * value mask p)) as (s & Es & Hs).
  { intros n c y x. rewrite E0, E1, E2, E3. intros Hn Hc Hy Hx.
    rewrite Hml by done.
    rewrite (finite_Fin (at4 mask n c y x)) by (by apply Hm).
    eexists. split; [reflexivity|]. reflexivity. }
  destruct (sum_values mask (value mask) (finite_value mask Hm))
    as (d & Ed & Hd).
  assert (Hd0 : ~ d == 0) by (intros E; apply Hsum; by rewrite Ed).
  unfold MaskedLoss.forward, T.mul. rewrite Hloss. cbn [mbind result_bind].
  rewrite Eml. cbn [mbind result_bind mret result_ret].
  rewrite Es, Ed, div_Fin by done.
  eexists. split; [reflexivity|].
  assert (Es' : s == l * d).
  { rewrite Hs, Hd, <- list_sum_scale. unfold positions.
    by rewrite E0, E1, E2, E3. }
  rewrite Es'. field. exact Hd0.
Qed.

End LossFacts.

Lemma masked_loss_nothing_masked_witness :
  let outputs := mkTensor4 1 1 1 3 (fun _ _ _ x => Float.of_nat x) in
  let target := mkTensor4 1 1 1 3 (fun _ _ _ _ => Float.Fin 5) in
  let mask := mkTensor4 1 1 1 3 (fun _ _ _ _ => Float.Fin 1) in
  let loss :=
    mkTensor4 1 1 1 3
      (fun _ _ _ x => Float.Fin (Qabs (inject_Z (Z.of_nat x) - 5))) in
  exists v,
    MaskedLoss.forward l1_elementwise outputs target mask = Return v /\
    Float.same v (T.mean loss).
Proof.
  intros outputs target mask loss.
  apply (masked_loss_nothing_masked l1_elementwise outputs target mask loss).
  - reflexivity.
  - reflexivity.
  - intros n c y x _ _ _ _. reflexivity.
Defined.

Lemma masked_loss_mask_scaling_witness :
  let outputs := mkTensor4 1 1 1 3 (fun _ _ _ x => Float.of_nat x) in
  let target := mkTensor4 1 1 1 3 (fun _ _ _ _ => Float.Fin 5) in
  let mask :=
    mkTensor4 1 1 1 3 (fun _ _ _ x => Float.Fin (if x is O then 0 else 1)) in
  exists v v',
    MaskedLoss.forward l1_elementwise outputs target (scale (Float.Fin 2) mask)
    = Return (Float.Fin v) /\
    MaskedLoss.forward l1_elementwise outputs target mask = Return (Float.Fin v') /\
    (v == v')%Q.
Proof.
  intros outputs target mask.
  apply (masked_loss_mask_scaling l1_elementwise 2 outputs target mask
           (mkTensor4 1 1 1 3
              (fun _ _ _ x => Float.Fin (Qabs (inject_Z (Z.of_nat x) - 5))))).
  - reflexivity.
  - reflexivity.
  - intros n c y x _ _ _ _. exact I.
  - intros n c y x _ _ _ _. exact I.
  - discriminate.
  - vm_compute. discriminate.
Defined.

(** A mask with the entries 1 and -1 has the sum zero: the masked loss of
    the absolute errors 5 and 4 is infinity, and minus infinity after the
    mask is multiplied by -1. *)
Example masked_loss_scaling_zero_sum :
  let outputs :=
    mkTensor4 1 1 1 2 (fun _ _ _ x => Float.Fin (if x is O then 5 else 4)) in
  let target := mkTensor4 1 1 1 2 (fun _ _ _ _ => Float.Fin 0) in
  let mask :=
    mkTensor4 1 1 1 2 (fun _ _ _ x => Float.Fin (if x is O then 1 else -1)) in
  MaskedLoss.forward l1_elementwise outputs target mask = Return Float.PInf /\
  MaskedLoss.forward l1_elementwise outputs target (scale (Float.Fin (-1)) mask)
  = Return Float.NInf.
Proof. split; vm_compute; reflexivity. Qed.

(** The mean absolute error of three outputs is 4; with the first cell
    masked the loss is this number, not the mean 7 / 2 of the two other
    absolute errors. *)
Lemma masked_loss_scalar_loss_witness :
  let outputs := mkTensor4 1 1 1 3 (fun _ _ _ x => Float.of_nat x) in
  let target := mkTensor4 1 1 1 3 (fun _ _ _ _ => Float.Fin 5) in
  let mask :=
    mkTensor4 1 1 1 3 (fun _ _ _ x => Float.Fin (if x is O then 0 else 1)) in
  exists v,
    MaskedLoss.forward l1_mean outputs target mask = Return (Float.Fin v) /\
    (v == 12 # 3)%Q.
Proof.
  intros outputs target mask.
  apply (masked_loss_scalar_loss l1_mean outputs target mask (12 # 3)).
  - reflexivity.
  - intros n c y x _ _ _ _. exact I.
  - vm_compute. discriminate.
Defined.

(** ** From the data set to the network (the script of train_cnn.py) *)

(** X18. The script builds the network with as many input channels as
    train members and as many output channels as test members.  For a split
    that leaves at least one member on each side and a cube whose height
    and ncells extents are positive multiples of 8, the network then
    accepts every batch of inputs of the data set, and its output has
    exactly the shape of the batch of targets. *)
Theorem dataset_batch_through_unet (data : DataArray) (split : Z) (g : Np.rng)
        (b idx : nat) :
  0 < split < Z.of_nat (size1 data) ->
  (8 | size2 data)%nat -> (0 < size2 data)%nat ->
  (8 | size3 data)%nat -> (0 < size3 data)%nat ->
  (idx < size0 data)%nat ->
  let self := (MyDataset.init data split g).1 in
  let model := UNet.init (Z.to_nat split) (size1 data - Z.to_nat split) in
  exists x y,
    MyDataset.getitem self idx = Return (x, y) /\
    shape <$> UNet.forward model (batch_shape b x)
    = Return (shape (batch_shape b y)).
Proof.
  intros Hs [p Hp] Hh [q Hq] Hw Hidx. unfold MyDataset.init.
  destruct (Np.shuffle (Np.arange (size1 data)) g) as [l g'] eqn:Hl.
  assert (Hperm : l ≡ₚ seq 0 (size1 data)).
  { change l with (l, g').1. rewrite <- Hl. apply shuffle_Permutation. }
  assert (Hlen : length l = size1 data) by (rewrite Hperm; apply length_seq).
  assert (Hall : Forall (fun m => m < size1 data)%nat l).
  { rewrite Hperm. apply Forall_forall. intros m Hm%elem_of_seq. lia. }
  cbn [fst]. unfold MyDataset.getitem.
  cbn [MyDataset.data MyDataset.train_indices MyDataset.test_indices].
  rewrite slice_upto, slice_from by lia.
  rewrite !isel_ok by eauto using Forall_take, Forall_drop.
  do 2 eexists. split; [reflexivity|].
  unfold batch_shape. cbn [len0 len1 len2].
  rewrite length_take_le, length_drop, Hlen by lia.
  edestruct (forward_any_size (Z.to_nat split) (size1 data - Z.to_nat split)
               (Torch.blank b (Z.to_nat split) (size2 data) (size3 data)))
    as (out & _ & _ & ->);
    [ reflexivity | lia | lia
    | cbn [Torch.blank size2 size3]; lia
    | cbn [Torch.blank size2 size3]; lia |].
  cbn [Torch.blank size0 size1 size2 size3]. unfold shape.
  cbn [size0 size1 size2 size3].
  rewrite crops_needed_none by (by eexists).
  rewrite Hp, Hq, !Nat.div_mul by lia.
  cbn [Torch.blank size0 size1 size2 size3].
  do 2 f_equal; [f_equal|]; lia.
Qed.

Lemma dataset_batch_through_unet_witness :
  let data : DataArray :=
    mkTensor4 2 5 8 16 (fun t m y x => Some (inject_Z (Z.of_nat (t + m + y + x)))) in
  let self := (MyDataset.init data 3 [7; 1; 4; 0]%nat).1 in
  let model := UNet.init (Z.to_nat 3) (size1 data - Z.to_nat 3) in
  exists x y,
    MyDataset.getitem self 1 = Return (x, y) /\
    shape <$> UNet.forward model (batch_shape 32 x)
    = Return (shape (batch_shape 32 y)).
Proof.
  intros data.
  apply (dataset_batch_through_unet data 3 [7; 1; 4; 0]%nat 32 1).
  - simpl. lia.
  - exists 1%nat. reflexivity.
  - simpl. lia.
  - exists 2%nat. reflexivity.
  - simpl. lia.
  - simpl. lia.
Defined.
